(** * DissExp1_Simulation: trajectory replay through the RVO2 oracle

    A shallow embedding of [examples/DissExp1_Simulation.cc]: the class
    [ExperimentSimulation] (synthetic trajectory generation, agent
    registration, the preferred-velocity estimator and the stepping loop) and
    [main].

    Conventions of the embedding.
    - [int] values are [Z]; [size_t] values are [Z] reduced modulo [2^64]
      where the source mixes the two (the usual arithmetic conversions turn
      the [int] operand of a comparison into [size_t]).
    - [float] is an abstract carrier with the operations the program uses
      ([FloatOps]); no law about rounding is assumed anywhere.
    - [RVO.h] is not among the sources: the vector operators are operations
      of [FloatOps], and the simulator is the interface of the specification
      with its [doStep] left as a function [advance].
    - [int] fields are taken to hold values an [int] can hold; the counter is
      below [maxSteps] wherever the loop adds one to it, so signed overflow
      is not modelled.
    - Indexing a [std::vector] outside its bounds is undefined behaviour; the
      embedding stops there with the fault [OutOfRange].
    - Text written to [std::cout] is not modelled, apart from the handles that
      [setupSimulation] prints; the rows written to the output file and the
      line written to [std::cerr] are. *)

From Stdlib Require Import ZArith QArith Lia.
From stdpp Require Import base option list gmap strings pretty.

Local Open Scope Z_scope.

(** ** Scalars and vectors *)

Record Vector2 (F : Type) := mkVector2 { x_ : F; y_ : F }.
Arguments mkVector2 {F} _ _.
Arguments x_ {F} _.
Arguments y_ {F} _.

(** The [float] operations of the program. [float_lit q] is the literal
    written [q] in decimal in the source, [float_of_int] the conversion of an
    [int], and [vsub], [vdiv], [vabs] are RVO's [operator-], [operator/] and
    [abs] on [RVO::Vector2], whose definitions live in [RVO.h]. *)
Class FloatOps := {
  float : Type;
  float_lit : Q -> float;
  float_of_int : Z -> float;
  fadd : float -> float -> float;
  fsub : float -> float -> float;
  fmul : float -> float -> float;
  fdiv : float -> float -> float;
  fneg : float -> float;
  fsin : float -> float;
  fsqrt : float -> float;
  M_PI_2 : float;
  vsub : Vector2 float -> Vector2 float -> Vector2 float;
  vdiv : Vector2 float -> float -> Vector2 float;
  vabs : Vector2 float -> float
}.

(** ** Undefined behaviour as a fault *)

Inductive fault := OutOfRange.

Inductive result (A : Type) :=
| Ok (a : A)
| Undefined (f : fault).
Arguments Ok {A} _.
Arguments Undefined {A} _.

#[global] Instance result_ret : MRet result := fun A a => Ok a.

#[global] Instance result_bind : MBind result := fun A B k r =>
  match r with
  | Ok a => k a
  | Undefined f => Undefined f
  end.

(** ** Machine integers *)

Definition INT_MAX : Z := 2 ^ 31 - 1.
Definition SIZE_MAX : Z := 2 ^ 64 - 1.

(** Conversion of an integer value to [size_t]. *)
Definition to_size_t (z : Z) : Z := z mod 2 ^ 64.

(** [std::vector::size]. *)
Definition size {A} (v : list A) : Z := Z.of_nat (length v).

(** [std::vector::operator[]] at a [size_t] index. *)
Definition at_index {A} (v : list A) (i : Z) : result A :=
  if (0 <=? i) && (i <? size v)
  then match v !! Z.to_nat i with
       | Some a => Ok a
       | None => Undefined OutOfRange
       end
  else Undefined OutOfRange.

Section Driver.
Context `{FO : FloatOps}.

Definition vzero : Vector2 float := mkVector2 (float_lit 0) (float_lit 0).

(** ** Simulation parameters *)

Definition TIME_STEP : float := fdiv (float_lit 1) (float_lit 90).
Definition NEIGHBOR_DIST : float := float_lit 15.
Definition MAX_NEIGHBORS : Z := 10.
Definition TIME_HORIZON : float := float_lit 10.
Definition TIME_HORIZON_OBST : float := float_lit 10.
Definition RADIUS : float := float_lit 0.5.
Definition MAX_SPEED : float := float_lit 2.

Definition MIN_X : float := float_lit 10.
Definition MIN_Y : float := float_lit 10.
Definition MAX_X : float := float_lit 100.
Definition MAX_Y : float := float_lit 100.

(** ** The avoidance oracle *)

Record Agent := mkAgent {
  position_ : Vector2 float;
  velocity_ : Vector2 float;
  prefVelocity_ : Vector2 float;
  maxSpeed_ : float
}.

Record AgentDefaults := mkAgentDefaults {
  def_neighborDist : float;
  def_maxNeighbors : Z;
  def_timeHorizon : float;
  def_timeHorizonObst : float;
  def_radius : float;
  def_maxSpeed : float
}.

(** The calls the driver makes on the simulator, kept as a history (most
    recent call first) so that properties of the order of calls can be
    stated. The history is not part of the simulator's own state. *)
Inductive OracleCall :=
| CallAddAgent (p : Vector2 float)
| CallSetAgentMaxSpeed (h : nat) (s : float)
| CallSetAgentPrefVelocity (h : nat) (v : Vector2 float)
| CallDoStep.

(** Modelled from the spec: [RVO::RVOSimulator] is declared in [RVO.h], which
    is not among the sources. Its state is what section 6 of the specification
    lets the driver observe: the agents in handle order, each with position,
    velocity, preferred velocity and maximum speed, and the configured
    defaults. *)
Record RVOSimulator := mkRVOSimulator {
  agents_ : list Agent;
  timeStep_ : float;
  defaultAgent_ : AgentDefaults;
  calls_ : list OracleCall
}.

(** Modelled from the spec: [new RVOSimulator()], [setTimeStep] and
    [setAgentDefaults] together are [configure] of section 6: no agent is
    registered yet. *)
Definition RVOSimulator_configure (dt : float) (d : AgentDefaults) : RVOSimulator :=
  mkRVOSimulator [] dt d [].

(** Modelled from the spec: [addAgent] is [registerAgent] of section 6:
    handles are dense and assigned in call order starting at 0. The new agent
    is at rest with the default maximum speed. *)
Definition addAgent (s : RVOSimulator) (p : Vector2 float) : RVOSimulator * nat :=
  (mkRVOSimulator
     (agents_ s ++ [mkAgent p vzero vzero (def_maxSpeed (defaultAgent_ s))])
     (timeStep_ s) (defaultAgent_ s) (CallAddAgent p :: calls_ s),
   length (agents_ s)).

(** Modelled from the spec: [setAgentMaxSpeed] is [setMaxSpeed] of section 6.
    A handle that was never returned indexes the agent vector out of range. *)
Definition setAgentMaxSpeed (s : RVOSimulator) (h : nat) (v : float) : result RVOSimulator :=
  match agents_ s !! h with
  | Some a =>
      Ok (mkRVOSimulator
            (<[h := mkAgent (position_ a) (velocity_ a) (prefVelocity_ a) v]> (agents_ s))
            (timeStep_ s) (defaultAgent_ s) (CallSetAgentMaxSpeed h v :: calls_ s))
  | None => Undefined OutOfRange
  end.

(** Modelled from the spec: [setAgentPrefVelocity] is [setPreferredVelocity]
    of section 6. *)
Definition setAgentPrefVelocity (s : RVOSimulator) (h : nat) (v : Vector2 float)
  : result RVOSimulator :=
  match agents_ s !! h with
  | Some a =>
      Ok (mkRVOSimulator
            (<[h := mkAgent (position_ a) (velocity_ a) v (maxSpeed_ a)]> (agents_ s))
            (timeStep_ s) (defaultAgent_ s) (CallSetAgentPrefVelocity h v :: calls_ s))
  | None => Undefined OutOfRange
  end.

(** Modelled from the spec: [getNumAgents] is [agentCount] of section 6. *)
Definition getNumAgents (s : RVOSimulator) : nat := length (agents_ s).

(** The solver behind [doStep]: given the time step and the agents, the agents
    one tick later. It is the collaborator the specification leaves opaque. *)
Variable advance : float -> list Agent -> list Agent.

(** Modelled from the spec: [doStep] is [advance] of section 6. *)
Definition doStep (s : RVOSimulator) : RVOSimulator :=
  mkRVOSimulator (advance (timeStep_ s) (agents_ s))
    (timeStep_ s) (defaultAgent_ s) (CallDoStep :: calls_ s).

(** Modelled from the spec: what section 6 and section 3 promise of the
    oracle's advance. It neither adds nor removes agents. *)
Definition keeps_roster : Prop :=
  forall dt ags, length (advance dt ags) = length ags.

(** Modelled from the spec: the advance consumes the preferred velocities and
    maximum speeds the driver issued and leaves them as they are. *)
Definition keeps_commands : Prop :=
  forall dt ags h a, ags !! h = Some a ->
    exists a', advance dt ags !! h = Some a' /\
      prefVelocity_ a' = prefVelocity_ a /\ maxSpeed_ a' = maxSpeed_ a.

(** Modelled from the spec: an agent whose maximum speed is zero is pinned:
    after an advance its velocity is the zero vector. *)
Definition pins_static : Prop :=
  forall dt ags h a', advance dt ags !! h = Some a' ->
    maxSpeed_ a' = float_lit 0 -> velocity_ a' = vzero.

(** ** The experiment *)

Record AgentTrajectory := mkAgentTrajectory {
  positions : list (Vector2 float);
  speeds : list float;
  headings : list float
}.

Record ExperimentSimulation := mkExperimentSimulation {
  sim : RVOSimulator;
  avatarData : gmap string AgentTrajectory;
  participantData : AgentTrajectory;
  currentStep : Z;
  maxSteps : Z;
  subject : Z;
  trial : Z
}.

Definition set_sim (e : ExperimentSimulation) (s : RVOSimulator) : ExperimentSimulation :=
  mkExperimentSimulation s (avatarData e) (participantData e)
    (currentStep e) (maxSteps e) (subject e) (trial e).

Definition set_currentStep (e : ExperimentSimulation) (n : Z) : ExperimentSimulation :=
  mkExperimentSimulation (sim e) (avatarData e) (participantData e)
    n (maxSteps e) (subject e) (trial e).

(** The constructor. *)
Definition ExperimentSimulation_new : ExperimentSimulation :=
  mkExperimentSimulation
    (RVOSimulator_configure TIME_STEP
       (mkAgentDefaults NEIGHBOR_DIST MAX_NEIGHBORS TIME_HORIZON TIME_HORIZON_OBST
          RADIUS MAX_SPEED))
    ∅ (mkAgentTrajectory [] [] []) 0 0 10 76.

(** ["A" + std::to_string(avatar) + "P"]. *)
Definition avatar_key (avatar : Z) : string := "A" +:+ pretty avatar +:+ "P".

(** The values of [avatar] in [for (int avatar = 1; avatar <= 10; ++avatar)]. *)
Definition avatar_ordinals : list Z := seqZ 1 10.

(** ** Synthetic trajectories *)

(** [push_back] on the three vectors of a trajectory. *)
Definition push_sample (tr : AgentTrajectory) (p : Vector2 float) (s h : float)
  : AgentTrajectory :=
  mkAgentTrajectory (positions tr ++ [p]) (speeds tr ++ [s]) (headings tr ++ [h]).

(** The body of the participant loop of [generateSampleData] at index [i]. *)
Definition participant_step (steps : Z) (tr : AgentTrajectory) (i : Z) : AgentTrajectory :=
  let t := fmul (float_of_int i) TIME_STEP in
  let x := fadd (fadd MIN_X (float_lit 5)) (fmul (float_lit 2) (fsin (fmul t (float_lit 0.5)))) in
  let y := fadd MIN_Y (fmul (fsub MAX_Y MIN_Y) (fdiv (float_of_int i) (float_of_int steps))) in
  push_sample tr (mkVector2 x y)
    (fadd (float_lit 1.2) (fmul (float_lit 0.3) (fsin t)))
    (fadd M_PI_2 (fmul (float_lit 0.2) (fsin (fmul t (float_lit 0.3))))).

(** The body of the inner avatar loop of [generateSampleData] at index [i]. *)
Definition avatar_step (steps avatar : Z) (tr : AgentTrajectory) (i : Z) : AgentTrajectory :=
  let offsetX := fmul (fsub (float_of_int avatar) (float_lit 5.5)) (float_lit 2) in
  let startY := fsub MAX_Y (float_lit 10) in
  let t := fmul (float_of_int i) TIME_STEP in
  let x := fadd (fadd (fadd MIN_X (float_lit 30)) offsetX)
             (fsin (fadd (fmul t (float_lit 0.3)) (float_of_int avatar))) in
  let y := fsub startY
             (fmul (fmul (fsub MAX_Y MIN_Y) (float_lit 0.8))
                (fdiv (float_of_int i) (float_of_int steps))) in
  push_sample tr (mkVector2 x y)
    (fadd (float_lit 1) (fmul (float_lit 0.2) (fsin (fadd t (float_of_int avatar)))))
    (fadd (fneg M_PI_2)
       (fmul (float_lit 0.1) (fsin (fadd (fmul t (float_lit 0.4)) (float_of_int avatar))))).

(** [avatarData[key]]: the entry, created empty when the key is new. *)
Definition avatar_entry (m : gmap string AgentTrajectory) (key : string) : AgentTrajectory :=
  default (mkAgentTrajectory [] [] []) (m !! key).

(** The body of the outer avatar loop of [generateSampleData]. *)
Definition generate_avatar (steps : Z) (m : gmap string AgentTrajectory) (avatar : Z)
  : gmap string AgentTrajectory :=
  let key := avatar_key avatar in
  <[key := foldl (avatar_step steps avatar) (avatar_entry m key) (seqZ 0 steps)]> m.

Definition generateSampleData (e : ExperimentSimulation) : ExperimentSimulation :=
  let steps := 500 in
  mkExperimentSimulation (sim e)
    (foldl (generate_avatar steps) (avatarData e) avatar_ordinals)
    (foldl (participant_step steps) (participantData e) (seqZ 0 steps))
    (currentStep e) steps (subject e) (trial e).

(** [dataPath] is not used by the body. *)
Definition loadTrajectoryData (e : ExperimentSimulation) (dataPath : string)
  : ExperimentSimulation * bool :=
  (generateSampleData e, true).

(** ** Registration *)

(** The lines [setupSimulation] prints, each with the handle it reports. *)
Inductive Registration :=
| AddedParticipant (id : nat)
| AddedAvatar (key : string) (id : nat)
| AddedGoal (id : nat).

Definition goalPos : Vector2 float :=
  mkVector2 MIN_X (fadd (fsqrt (float_of_int (9 * 9 + 11 * 11))) MIN_Y).

(** The participant block of [setupSimulation]. *)
Definition setup_participant (e : ExperimentSimulation)
  : ExperimentSimulation * list Registration :=
  match positions (participantData e) with
  | [] => (e, [])
  | p0 :: _ =>
      let '(s, agentId) := addAgent (sim e) p0 in
      (set_sim e s, [AddedParticipant agentId])
  end.

(** The body of the avatar loop of [setupSimulation]. *)
Definition setup_avatar (acc : ExperimentSimulation * list Registration) (avatar : Z)
  : ExperimentSimulation * list Registration :=
  let '(e, report) := acc in
  let key := avatar_key avatar in
  match avatarData e !! key with
  | Some tr =>
      match positions tr with
      | [] => acc
      | p0 :: _ =>
          let '(s, agentId) := addAgent (sim e) p0 in
          (set_sim e s, report ++ [AddedAvatar key agentId])
      end
  | None => acc
  end.

Definition setupSimulation (e : ExperimentSimulation)
  : result (ExperimentSimulation * list Registration) :=
  let '(e1, report) := foldl setup_avatar (setup_participant e) avatar_ordinals in
  let '(s, goalId) := addAgent (sim e1) goalPos in
  s' ← setAgentMaxSpeed s goalId (float_lit 0);
  Ok (set_sim e1 s', report ++ [AddedGoal goalId]).

(** ** The preferred-velocity estimator *)

(** [agentId] is not used by the body; [currentStep] is read from the object. *)
Definition calculatePreferredVelocity (e : ExperimentSimulation) (agentId : Z)
    (trajectory : AgentTrajectory) : result (Vector2 float) :=
  if to_size_t (size (positions trajectory) - 1) <=? to_size_t (currentStep e)
  then Ok vzero
  else
    currentPos ← at_index (positions trajectory) (to_size_t (currentStep e));
    nextPos ← at_index (positions trajectory) (to_size_t (currentStep e + 1));
    Ok (vdiv (vsub nextPos currentPos) TIME_STEP).

(** ** One tick *)

(** The participant block of [updateAgentPositions]. *)
Definition update_participant (e : ExperimentSimulation) : result ExperimentSimulation :=
  if to_size_t (currentStep e) <? size (positions (participantData e))
  then
    preferredVel ← calculatePreferredVelocity e 0 (participantData e);
    s ← setAgentPrefVelocity (sim e) 0 preferredVel;
    Ok (set_sim e s)
  else Ok e.

(** The body of the avatar loop of [updateAgentPositions]. *)
Definition update_avatar (e : ExperimentSimulation) (avatar : Z) : result ExperimentSimulation :=
  match avatarData e !! avatar_key avatar with
  | Some tr =>
      if to_size_t (currentStep e) <? size (positions tr)
      then
        preferredVel ← calculatePreferredVelocity e avatar tr;
        s ← setAgentPrefVelocity (sim e) (Z.to_nat avatar) preferredVel;
        Ok (set_sim e s)
      else Ok e
  | None => Ok e
  end.

(** A loop whose body can fault, over the values of its counter. *)
Fixpoint for_each {A B} (body : A -> B -> result A) (a : A) (l : list B) : result A :=
  match l with
  | [] => Ok a
  | b :: l' => a' ← body a b; for_each body a' l'
  end.

Definition updateAgentPositions (e : ExperimentSimulation) : result ExperimentSimulation :=
  if maxSteps e <=? currentStep e then Ok e
  else
    e1 ← update_participant e;
    e2 ← for_each update_avatar e1 avatar_ordinals;
    s ← setAgentPrefVelocity (sim e2) 11 vzero;
    Ok (set_sim e2 s).

(** ** The run loop *)

(** A row of [simulation_output.csv]. *)
Record Row := mkRow {
  row_step : Z;
  row_agent_id : nat;
  row_x : float;
  row_y : float;
  row_vx : float;
  row_vy : float;
  row_speed : float
}.

(** The rows written at one sampled tick: one per agent, in handle order. *)
Definition log_rows (e : ExperimentSimulation) : list Row :=
  imap (fun i a =>
          mkRow (currentStep e) i
            (x_ (position_ a)) (y_ (position_ a))
            (x_ (velocity_ a)) (y_ (velocity_ a))
            (vabs (velocity_ a)))
       (agents_ (sim e)).

(** The body of the loop of [runSimulation], followed by [++currentStep]. *)
Definition run_tick (st : ExperimentSimulation * list Row)
  : result (ExperimentSimulation * list Row) :=
  let '(e, out) := st in
  e1 ← updateAgentPositions e;
  let e2 := set_sim e1 (doStep (sim e1)) in
  let out' := if Z.rem (currentStep e2) 10 =? 0 then out ++ log_rows e2 else out in
  Ok (set_currentStep e2 (currentStep e2 + 1), out').

(** [n] iterations of the loop. *)
Fixpoint run_ticks (n : nat) (st : ExperimentSimulation * list Row)
  : result (ExperimentSimulation * list Row) :=
  match n with
  | O => Ok st
  | S n' => st' ← run_tick st; run_ticks n' st'
  end.

(** [for (currentStep = 0; currentStep < maxSteps; ++currentStep)]: the body
    changes neither the counter nor the bound, so the loop runs [maxSteps]
    times when [maxSteps] is positive and not at all otherwise. The result is
    the final object and the rows written after the header. *)
Definition runSimulation (e : ExperimentSimulation)
  : result (ExperimentSimulation * list Row) :=
  run_ticks (Z.to_nat (maxSteps e)) (set_currentStep e 0, []).

(** ** The program *)

(** [main]: what it writes to [std::cerr], and the outcome of the run.
    [printSimulationStats] only prints. *)
Definition main : list string * result (ExperimentSimulation * list Row) :=
  let experiment := ExperimentSimulation_new in
  let '(experiment, loaded) := loadTrajectoryData experiment "./data/" in
  let cerr := if negb loaded then ["Warning: Using generated sample data"] else [] in
  (cerr,
   '(experiment, _) ← setupSimulation experiment;
   runSimulation experiment).

(** ** Vocabulary of the properties *)

(** [estimate(T, i)] of the specification: the estimator as the code runs it
    when the tick counter is [tick]. *)
Definition estimate (trajectory : AgentTrajectory) (tick : Z) : result (Vector2 float) :=
  calculatePreferredVelocity (set_currentStep ExperimentSimulation_new tick) 0 trajectory.

(** The preferred velocity the oracle holds for a handle. *)
Definition prefVelocityOf (s : RVOSimulator) (h : nat) : option (Vector2 float) :=
  prefVelocity_ <$> agents_ s !! h.

(** A trajectory with at least one sample. *)
Definition has_samples (tr : AgentTrajectory) : bool :=
  match positions tr with
  | [] => false
  | _ :: _ => true
  end.

(** The participant and the ten avatars all have data: the roster for which
    [updateAgentPositions] addresses the agents by the handles 0 to 11. *)
Definition full_roster (e : ExperimentSimulation) : bool :=
  has_samples (participantData e) &&
  forallb (fun avatar =>
             match avatarData e !! avatar_key avatar with
             | Some tr => has_samples tr
             | None => false
             end) avatar_ordinals.

(** The avatars [setupSimulation] registers, in the order of its loop, each
    with its key and the first sample of its trajectory. *)
Definition registered_avatars (m : gmap string AgentTrajectory) (l : list Z)
  : list (string * Vector2 float) :=
  omap (fun avatar =>
          match m !! avatar_key avatar with
          | Some tr =>
              match positions tr with
              | [] => None
              | p0 :: _ => Some (avatar_key avatar, p0)
              end
          | None => None
          end) l.

(** An agent as [addAgent] creates it. *)
Definition new_agent (s : RVOSimulator) (p : Vector2 float) : Agent :=
  mkAgent p vzero vzero (def_maxSpeed (defaultAgent_ s)).

(** The report lines of consecutive avatar registrations, the first of them
    with handle [first]. *)
Fixpoint avatar_report (first : nat) (regs : list (string * Vector2 float))
  : list Registration :=
  match regs with
  | [] => []
  | kp :: rest => AddedAvatar kp.1 first :: avatar_report (S first) rest
  end.

(** What the driver never writes once an agent is registered and the goal is
    pinned: position, velocity and maximum speed. *)
Definition agent_body (a : Agent) : Vector2 float * Vector2 float * float :=
  (position_ a, velocity_ a, maxSpeed_ a).

(** A call history in which handle 11 was never given a preferred velocity
    other than the zero vector. *)
Definition goal_calm (calls : list OracleCall) : Prop :=
  forall v, CallSetAgentPrefVelocity 11 v ∈ calls -> v = vzero.

(** The number of [doStep] calls in a call history. *)
Fixpoint count_doStep (calls : list OracleCall) : nat :=
  match calls with
  | [] => 0
  | CallDoStep :: rest => S (count_doStep rest)
  | _ :: rest => count_doStep rest
  end.

(** What the preferred-velocity updates of one tick leave as it was: the
    trajectory data, the counters, the time step, the agents apart from their
    preferred velocities, the number of [doStep] calls, and the calm of the
    goal. *)
Definition frame (e e' : ExperimentSimulation) : Prop :=
  avatarData e' = avatarData e /\
  participantData e' = participantData e /\
  currentStep e' = currentStep e /\
  maxSteps e' = maxSteps e /\
  timeStep_ (sim e') = timeStep_ (sim e) /\
  agent_body <$> agents_ (sim e') = agent_body <$> agents_ (sim e) /\
  count_doStep (calls_ (sim e')) = count_doStep (calls_ (sim e)) /\
  (goal_calm (calls_ (sim e)) -> goal_calm (calls_ (sim e'))).

(** The ticks at which [runSimulation] writes rows, among [n] ticks from
    [first] on. *)
Definition sampled_ticks (first : Z) (n : nat) : list Z :=
  filter (fun k => Z.rem k 10 = 0) (seqZ first (Z.of_nat n)).

(** The step and handle columns of the rows of one sampled tick with [n]
    agents. *)
Definition tick_keys (n : nat) (k : Z) : list (Z * nat) :=
  (fun i => (k, i)) <$> seq 0 n.

Definition row_key (r : Row) : Z * nat := (row_step r, row_agent_id r).

(** The object after [doStep] and [++currentStep], from the object as
    [updateAgentPositions] left it. *)
Definition after_doStep (e : ExperimentSimulation) : ExperimentSimulation :=
  set_sim e (doStep (sim e)).

Definition after_tick (e : ExperimentSimulation) : ExperimentSimulation :=
  set_currentStep (after_doStep e) (currentStep e + 1).

(** The rows after the logging block of the tick. *)
Definition rows_after_tick (e : ExperimentSimulation) (out : list Row) : list Row :=
  if Z.rem (currentStep e) 10 =? 0 then out ++ log_rows (after_doStep e) else out.

(** The goal through one tick: never a preferred velocity other than zero,
    still pinned, and at rest in every row written. *)
Definition goal_at_rest (e : ExperimentSimulation) (out : list Row) : Prop :=
  goal_calm (calls_ (sim e)) /\
  (exists g, agents_ (sim e) !! 11%nat = Some g /\ maxSpeed_ g = float_lit 0) /\
  forall r, r ∈ out -> row_agent_id r = 11%nat ->
    row_vx r = float_lit 0 /\ row_vy r = float_lit 0.

(** The trajectories of [e0] that have run out by tick [k] hold the zero
    vector in the oracle of [e]. *)
Definition spent_hold (e0 : ExperimentSimulation) (k : Z) (e : ExperimentSimulation) : Prop :=
  (size (positions (participantData e0)) <= k ->
   prefVelocityOf (sim e) 0 = Some vzero) /\
  forall a tr, a ∈ avatar_ordinals -> avatarData e0 !! avatar_key a = Some tr ->
    size (positions tr) <= k -> prefVelocityOf (sim e) (Z.to_nat a) = Some vzero.

(** The oracle of [e1] holds, for every agent of the roster of [e0], the
    preferred velocity of tick [k]: the estimate for the participant and the
    avatars (zero once the trajectory has run out), zero for the goal. *)
Definition prefs_ready (e0 : ExperimentSimulation) (k : Z) (e1 : ExperimentSimulation) : Prop :=
  prefVelocityOf (sim e1) 11 = Some vzero /\
  (exists v, estimate (participantData e0) k = Ok v /\
     prefVelocityOf (sim e1) 0 = Some v /\
     (size (positions (participantData e0)) <= k -> v = vzero)) /\
  forall a, a ∈ avatar_ordinals ->
    exists tr v, avatarData e0 !! avatar_key a = Some tr /\
      estimate tr k = Ok v /\
      prefVelocityOf (sim e1) (Z.to_nat a) = Some v /\
      (size (positions tr) <= k -> v = vzero).

(** The shape of the rows after [k] ticks of a run with twelve agents that
    started at [start] with no row: the step and handle columns, and, once a
    tick has run, the rows of tick 0 in front, as they were read from the
    oracle right after the first [doStep]. *)
Definition rows_shape (start E1 : ExperimentSimulation) (k : nat)
    (e : ExperimentSimulation) (out : list Row) : Prop :=
  row_key <$> out = flat_map (tick_keys 12) (sampled_ticks 0 k) /\
  match k with
  | O => e = start /\ out = []
  | S _ => exists rest, out = log_rows (after_doStep E1) ++ rest
  end.

(** [tr'] is [tr] with [n] samples pushed on each of its three vectors. *)
Definition appended (n : nat) (tr tr' : AgentTrajectory) : Prop :=
  exists ps ss hs,
    positions tr' = positions tr ++ ps /\
    speeds tr' = speeds tr ++ ss /\
    headings tr' = headings tr ++ hs /\
    length ps = n /\ length ss = n /\ length hs = n.

(** The first sample of the participant, when there is one: what the
    participant block of [setupSimulation] registers. *)
Definition participant_regs (e : ExperimentSimulation) : list (Vector2 float) :=
  match positions (participantData e) with
  | [] => []
  | p0 :: _ => [p0]
  end.

(** The calls [runSimulation] makes on the oracle: a preferred velocity for
    one of the handles 0 to 11, or [doStep]. *)
Definition run_call (c : OracleCall) : Prop :=
  match c with
  | CallSetAgentPrefVelocity h _ => (h <= 11)%nat
  | CallDoStep => True
  | _ => False
  end.

(** [calls'] is [calls] followed by calls of the run only. *)
Definition run_calls_since (calls calls' : list OracleCall) : Prop :=
  exists new, calls' = new ++ calls /\ Forall run_call new.

(** What the preferred-velocity writes of a tick amount to, from [e] to [e1]:
    the frame is kept, the call history grew by calls of the run only, and no
    agent with a handle from 12 on was touched. *)
Definition pref_writes (e e1 : ExperimentSimulation) : Prop :=
  frame e e1 /\
  run_calls_since (calls_ (sim e)) (calls_ (sim e1)) /\
  forall h, (12 <= h)%nat -> agents_ (sim e1) !! h = agents_ (sim e) !! h.

(** A row as [runSimulation] writes them in a run of [budget] ticks with [n]
    agents: the speed column is [abs] of the velocity columns, the step is a
    sampled tick of the run, the handle is one of the oracle's. *)
Definition row_wellformed (budget : Z) (n : nat) (r : Row) : Prop :=
  row_speed r = vabs (mkVector2 (row_vx r) (row_vy r)) /\
  Z.rem (row_step r) 10 = 0 /\
  0 <= row_step r < budget /\
  (row_agent_id r < n)%nat.

(** What a run leaves after [k] ticks, from a call history [calls0] and
    [n] agents, within a budget of [budget] ticks. *)
Definition run_progress (calls0 : list OracleCall) (n : nat) (budget : Z) (k : nat)
    (e : ExperimentSimulation) (out : list Row) : Prop :=
  run_calls_since calls0 (calls_ (sim e)) /\
  count_doStep (calls_ (sim e)) = (count_doStep calls0 + k)%nat /\
  row_key <$> out = flat_map (tick_keys n) (sampled_ticks 0 k) /\
  Forall (row_wellformed budget n) out.

End Driver.

(** ** A concrete carrier: decimal fixed point

    An instance of [FloatOps] on which the program can be run: a scalar is an
    integer count of [10^-9] units, every operation rounds towards minus
    infinity, and [fsin] is the cubic Taylor polynomial. It stands in for
    [float] where a property has to be evaluated. *)
Module Fixed.

Definition scale : Z := 10 ^ 9.

Definition lit (q : Q) : Z := (Qnum q * scale) / Z.pos (Qden q).
Definition of_int (z : Z) : Z := z * scale.
Definition mul (a b : Z) : Z := (a * b) / scale.
Definition div (a b : Z) : Z := (a * scale) / b.
Definition sin3 (a : Z) : Z := a - div (mul a (mul a a)) (of_int 6).
Definition sqrt (a : Z) : Z := Z.sqrt (a * scale).

Definition sub2 (a b : Vector2 Z) : Vector2 Z :=
  mkVector2 (x_ a - x_ b) (y_ a - y_ b).

(** [operator/] of RVO multiplies by the inverse of the scalar. *)
Definition div2 (a : Vector2 Z) (s : Z) : Vector2 Z :=
  let invS := div (of_int 1) s in
  mkVector2 (mul (x_ a) invS) (mul (y_ a) invS).

Definition absSq (a : Vector2 Z) : Z := mul (x_ a) (x_ a) + mul (y_ a) (y_ a).
Definition abs2 (a : Vector2 Z) : Z := sqrt (absSq a).

#[export] Instance ops : FloatOps := {|
  float := Z;
  float_lit := lit;
  float_of_int := of_int;
  fadd := Z.add;
  fsub := Z.sub;
  fmul := mul;
  fdiv := div;
  fneg := Z.opp;
  fsin := sin3;
  fsqrt := sqrt;
  M_PI_2 := 1570796326;
  vsub := sub2;
  vdiv := div2;
  vabs := abs2
|}.

(** The new velocity of an agent that meets no constraint: the preferred
    velocity, cut back to the disc of radius [maxSpeed_]; an agent whose
    maximum speed is zero stays at rest. *)
Definition new_velocity (a : Agent) : Vector2 Z :=
  if maxSpeed_ a =? 0 then mkVector2 0 0
  else if mul (maxSpeed_ a) (maxSpeed_ a) <? absSq (prefVelocity_ a)
  then
    let n := div2 (prefVelocity_ a) (abs2 (prefVelocity_ a)) in
    mkVector2 (mul (x_ n) (maxSpeed_ a)) (mul (y_ n) (maxSpeed_ a))
  else prefVelocity_ a.

(** One agent, one tick later: it takes its new velocity and moves by it. *)
Definition move (dt : Z) (a : Agent) : Agent :=
  let v := new_velocity a in
  mkAgent
    (mkVector2 (x_ (position_ a) + mul (x_ v) dt) (y_ (position_ a) + mul (y_ v) dt))
    v (prefVelocity_ a) (maxSpeed_ a).

(** An oracle in which no agent ever constrains another. *)
Definition free_flow (dt : @float ops) (ags : list Agent) : list Agent :=
  map (move dt) ags.

(** Small rosters to run the driver on. A trajectory of [n] samples along a
    vertical line at abscissa [x0], one unit apart. *)
Definition line (x0 n : Z) : AgentTrajectory :=
  foldl (fun tr i => push_sample tr (mkVector2 (of_int x0) (of_int i)) (of_int 1) 0)
    (mkAgentTrajectory [] [] []) (seqZ 0 n).

(** The participant with three samples and all ten avatars with one to three
    samples, for a run of five ticks: every trajectory runs out before the
    run ends. *)
Definition demo : ExperimentSimulation :=
  mkExperimentSimulation (sim ExperimentSimulation_new)
    (list_to_map ((fun a => (avatar_key a, line (2 * a) (1 + a mod 3))) <$> avatar_ordinals))
    (line 0 3) 0 5 10 76.

(** [demo] after [setupSimulation]. *)
Definition demo_ready : ExperimentSimulation :=
  match setupSimulation demo with
  | Ok (e, _) => e
  | Undefined _ => demo
  end.

(** The participant with two samples and three avatar entries: A2P with two
    samples, A3P without any, A7P with one. *)
Definition sparse : ExperimentSimulation :=
  mkExperimentSimulation (sim ExperimentSimulation_new)
    (<[avatar_key 2 := line 4 2]>
       (<[avatar_key 3 := line 6 0]> (<[avatar_key 7 := line 14 1]> ∅)))
    (line 0 2) 0 2 10 76.

(** A run whose first row is the row of step 0 for handle 0, with a position
    other than the first sample of the participant's trajectory. *)
Definition first_row_moved (res : result (ExperimentSimulation * list Row)) : bool :=
  match res with
  | Ok (e, r :: _) =>
      match positions (participantData e) with
      | p0 :: _ =>
          (row_step r =? 0) && Nat.eqb (row_agent_id r) 0 &&
          negb ((row_x r =? x_ p0) && (row_y r =? y_ p0))
      | [] => false
      end
  | _ => false
  end.

(** [sparse] after [setupSimulation]: four agents. *)
Definition sparse_ready : ExperimentSimulation :=
  match setupSimulation sparse with
  | Ok (e, _) => e
  | Undefined _ => sparse
  end.

(** [demo] after a second [setupSimulation]: twenty-four agents. *)
Definition demo_twice : ExperimentSimulation :=
  match setupSimulation demo_ready with
  | Ok (e, _) => e
  | Undefined _ => demo_ready
  end.

(** No sample for the participant; A2P with two samples and A7P with one. *)
Definition headless : ExperimentSimulation :=
  mkExperimentSimulation (sim ExperimentSimulation_new)
    (<[avatar_key 2 := line 4 2]> (<[avatar_key 7 := line 14 1]> ∅))
    (line 0 0) 0 2 10 76.

End Fixed.

(** * Properties *)

(** ** The estimator *)

Section EstimatorFacts.
Context `{FO : FloatOps}.
Implicit Types (e : ExperimentSimulation) (tr : AgentTrajectory).

Lemma to_size_t_small z : 0 <= z <= SIZE_MAX -> to_size_t z = z.
Proof. unfold to_size_t, SIZE_MAX. intros. apply Z.mod_small. lia. Qed.

Lemma to_size_t_le z : 0 <= z -> to_size_t z <= z.
Proof. unfold to_size_t. intros. apply Z.mod_le; lia. Qed.

Lemma size_nonneg {A} (v : list A) : 0 <= size v.
Proof. unfold size. lia. Qed.

Lemma at_index_Ok {A} (v : list A) i :
  0 <= i < size v -> exists a, at_index v i = Ok a /\ v !! Z.to_nat i = Some a.
Proof.
  intros Hi. unfold at_index.
  destruct (v !! Z.to_nat i) as [a|] eqn:Hl.
  - exists a. split; [|done].
    replace (0 <=? i) with true by (symmetry; apply Z.leb_le; lia).
    replace (i <? size v) with true by (symmetry; apply Z.ltb_lt; lia).
    done.
  - apply lookup_ge_None in Hl. unfold size in Hi. lia.
Qed.

Lemma at_index_empty {A} i : at_index (@nil A) i = Undefined OutOfRange.
Proof.
  unfold at_index. simpl.
  destruct ((0 <=? i) && (i <? size [])); reflexivity.
Qed.

(** The estimator reads the object only for its tick counter. *)
Lemma calculatePreferredVelocity_estimate e agentId tr :
  calculatePreferredVelocity e agentId tr = estimate tr (currentStep e).
Proof. reflexivity. Qed.

(** Between two samples the estimator is the finite difference. *)
Lemma estimate_in_range tr i :
  0 <= i -> size (positions tr) <= SIZE_MAX -> i < size (positions tr) - 1 ->
  exists cur next,
    positions tr !! Z.to_nat i = Some cur /\
    positions tr !! Z.to_nat (i + 1) = Some next /\
    estimate tr i = Ok (vdiv (vsub next cur) TIME_STEP).
Proof.
  intros H0 Hmax Hi.
  destruct (at_index_Ok (positions tr) i) as (cur & Hc & Hlc); [lia|].
  destruct (at_index_Ok (positions tr) (i + 1)) as (next & Hn & Hln); [lia|].
  exists cur, next. split; [done|]. split; [done|].
  unfold estimate, calculatePreferredVelocity. simpl.
  rewrite (to_size_t_small (size (positions tr) - 1)) by lia.
  rewrite !(to_size_t_small i) by lia.
  rewrite (to_size_t_small (i + 1)) by lia.
  replace (size (positions tr) - 1 <=? i) with false
    by (symmetry; apply Z.leb_gt; lia).
  rewrite Hc. simpl. rewrite Hn. reflexivity.
Qed.

(** At the last sample of a trajectory that has one, and beyond it, the
    estimator is the zero vector. *)
Lemma estimate_exhausted tr i :
  1 <= size (positions tr) -> size (positions tr) - 1 <= i -> i <= SIZE_MAX ->
  estimate tr i = Ok vzero.
Proof.
  intros H1 Hi Hmax.
  unfold estimate, calculatePreferredVelocity. simpl.
  rewrite (to_size_t_small (size (positions tr) - 1)) by lia.
  rewrite (to_size_t_small i) by lia.
  replace (size (positions tr) - 1 <=? i) with true
    by (symmetry; apply Z.leb_le; lia).
  reflexivity.
Qed.

(** A trajectory of one sample yields the zero vector at every tick. *)
Lemma estimate_single p s h i :
  0 <= i <= SIZE_MAX -> estimate (mkAgentTrajectory [p] s h) i = Ok vzero.
Proof.
  intros Hi. apply estimate_exhausted; simpl; unfold size; simpl; lia.
Qed.

(** A trajectory without samples: [size() - 1] wraps around to [SIZE_MAX],
    the guard does not fire, and the first read is out of range. *)
Lemma estimate_empty s h i :
  0 <= i < SIZE_MAX -> estimate (mkAgentTrajectory [] s h) i = Undefined OutOfRange.
Proof.
  intros Hi.
  unfold estimate, calculatePreferredVelocity. simpl.
  rewrite (to_size_t_small i) by lia.
  replace (to_size_t (size (@nil (Vector2 float)) - 1)) with SIZE_MAX by reflexivity.
  replace (SIZE_MAX <=? i) with false by (symmetry; apply Z.leb_gt; lia).
  unfold mbind, result_bind. rewrite at_index_empty. reflexivity.
Qed.

(** Where the callers' guard [currentStep < size()] holds, the estimator
    returns. *)
Lemma estimate_total tr i :
  0 <= i <= INT_MAX -> i < size (positions tr) -> exists v, estimate tr i = Ok v.
Proof.
  intros Hi Hlt.
  assert (Hs : to_size_t i = i).
  { apply to_size_t_small. unfold INT_MAX, SIZE_MAX in *. lia. }
  unfold estimate, calculatePreferredVelocity. simpl.
  destruct (to_size_t (size (positions tr) - 1) <=? to_size_t i) eqn:Hg; [eauto|].
  apply Z.leb_gt in Hg. rewrite Hs in Hg.
  pose proof (to_size_t_le (size (positions tr) - 1)) as Hle.
  destruct (at_index_Ok (positions tr) i) as (cur & Hc & _); [lia|].
  destruct (at_index_Ok (positions tr) (i + 1)) as (next & Hn & _); [lia|].
  rewrite Hs, Hc. simpl.
  rewrite (to_size_t_small (i + 1)) by (unfold INT_MAX, SIZE_MAX in *; lia).
  rewrite Hn. simpl. eauto.
Qed.

(** Past the end of a trajectory that the guard [currentStep < size()] has
    let through at least once, the estimator is zero. *)
Lemma estimate_past_end tr i :
  0 <= i <= INT_MAX -> 1 <= size (positions tr) -> size (positions tr) - 1 <= i ->
  estimate tr i = Ok vzero.
Proof.
  intros Hi H1 Hge. apply estimate_exhausted; [done..|].
  unfold INT_MAX, SIZE_MAX in *. lia.
Qed.

(** C1. For a trajectory with at least one sample the estimator is as the
    specification says: the finite difference [(T[i+1] - T[i]) / dt] at a tick
    [i < length(T) - 1], the zero vector at a tick [i >= length(T) - 1]. For
    the trajectory without samples the second half fails: at tick 0 the
    condition [0 >= length(T) - 1] holds (the right side is -1), but
    [size() - 1] is computed in [size_t] and wraps around to [SIZE_MAX], the
    guard does not fire, and the estimator reads [positions[0]] of an empty
    vector. *)
Theorem estimate_holds_except_no_samples :
  (forall tr i, 0 <= i -> 1 <= size (positions tr) <= SIZE_MAX ->
     i < size (positions tr) - 1 ->
     exists cur next,
       positions tr !! Z.to_nat i = Some cur /\
       positions tr !! Z.to_nat (i + 1) = Some next /\
       estimate tr i = Ok (vdiv (vsub next cur) TIME_STEP)) /\
  (forall tr i, 1 <= size (positions tr) ->
     size (positions tr) - 1 <= i <= SIZE_MAX -> estimate tr i = Ok vzero) /\
  (size (positions (mkAgentTrajectory [] [] [])) - 1 <= 0 /\
   to_size_t (size (positions (mkAgentTrajectory [] [] [])) - 1) = SIZE_MAX /\
   calculatePreferredVelocity (set_currentStep ExperimentSimulation_new 0) 0
     (mkAgentTrajectory [] [] []) = Undefined OutOfRange).
Proof.
  split; [|split].
  - intros tr i H0 Hs Hi. apply estimate_in_range; lia.
  - intros tr i H1 Hi. apply estimate_exhausted; lia.
  - split; [unfold size; simpl; lia|]. split; [reflexivity|].
    rewrite calculatePreferredVelocity_estimate. simpl.
    apply estimate_empty. unfold SIZE_MAX. lia.
Qed.

(** C2. A trajectory of length 1 yields the zero vector at every tick. A
    trajectory of length 0 does not: at every tick the estimator indexes the
    empty vector out of range (tick [SIZE_MAX] apart, which no [int] counter
    reaches). *)
Theorem estimate_short_trajectories (p : Vector2 float) :
  (forall i, 0 <= i <= SIZE_MAX ->
     estimate (mkAgentTrajectory [p] [] []) i = Ok vzero) /\
  (forall i, 0 <= i < SIZE_MAX ->
     estimate (mkAgentTrajectory [] [] []) i = Undefined OutOfRange).
Proof.
  split; intros i Hi; [by apply estimate_single|by apply estimate_empty].
Qed.

End EstimatorFacts.

(** ** Registration *)

Section RegistrationFacts.
Context `{FO : FloatOps}.
Implicit Types (e : ExperimentSimulation) (s : RVOSimulator).

Lemma set_sim_sim e : set_sim e (sim e) = e.
Proof. destruct e; reflexivity. Qed.

Lemma RVOSimulator_eta s :
  mkRVOSimulator (agents_ s) (timeStep_ s) (defaultAgent_ s) (calls_ s) = s.
Proof. destruct s; reflexivity. Qed.

(** The avatar loop of [setupSimulation] appends one agent per registered
    avatar, in loop order, and reports consecutive handles. *)
Lemma setup_avatars_spec (l : list Z) : forall e report,
  let regs := registered_avatars (avatarData e) l in
  foldl setup_avatar (e, report) l =
    (set_sim e
       (mkRVOSimulator
          (agents_ (sim e) ++ map (fun kp => new_agent (sim e) kp.2) regs)
          (timeStep_ (sim e)) (defaultAgent_ (sim e))
          (rev (map (fun kp => CallAddAgent kp.2) regs) ++ calls_ (sim e))),
     report ++ avatar_report (length (agents_ (sim e))) regs).
Proof.
  induction l as [|a l IH]; intros e report; simpl.
  - rewrite !app_nil_r, RVOSimulator_eta, set_sim_sim. reflexivity.
  - destruct (avatarData e !! avatar_key a) as [tr|] eqn:Hk; simpl.
    2:{ rewrite IH. reflexivity. }
    destruct (positions tr) as [|p0 ps] eqn:Hp; simpl.
    { rewrite IH. reflexivity. }
    rewrite IH. destruct e as [s m pd cs ms su tl]. simpl.
    unfold set_sim, new_agent. simpl.
    rewrite length_app. simpl.
    replace (length (agents_ s) + 1)%nat with (S (length (agents_ s))) by lia.
    rewrite <- !app_assoc. simpl. reflexivity.
Qed.

Lemma registered_avatars_length m (l : list Z) :
  forallb (fun avatar =>
             match m !! avatar_key avatar with
             | Some tr => has_samples tr
             | None => false
             end) l = true ->
  length (registered_avatars m l) = length l.
Proof.
  induction l as [|a l IH]; simpl; [done|].
  intros H. apply andb_prop in H as [Ha Hl].
  destruct (m !! avatar_key a) as [tr|]; [|done].
  unfold has_samples in Ha. destruct (positions tr); [done|].
  simpl. rewrite IH; done.
Qed.

(** Every registered avatar is one of the loop's ordinals, and it is
    registered at the first sample of its own trajectory. *)
Lemma registered_avatars_sound m (l : list Z) kp :
  kp ∈ registered_avatars m l ->
  exists avatar tr, avatar ∈ l /\ kp.1 = avatar_key avatar /\
    m !! avatar_key avatar = Some tr /\ positions tr !! 0%nat = Some kp.2.
Proof.
  unfold registered_avatars. rewrite list_elem_of_omap.
  intros (a & Ha & Hm).
  destruct (m !! avatar_key a) as [tr|] eqn:Hk; [|done].
  destruct (positions tr) as [|p0 ps] eqn:Hp; [done|].
  inversion Hm; subst. exists a, tr. simpl. rewrite Hp. done.
Qed.

Lemma avatar_report_lookup regs : forall first i kp,
  regs !! i = Some kp ->
  avatar_report first regs !! i = Some (AddedAvatar kp.1 (first + i)).
Proof.
  induction regs as [|r regs IH]; intros first i kp; [done|].
  destruct i as [|i]; simpl.
  - intros [= ->]. rewrite Nat.add_0_r. done.
  - intros H. rewrite (IH (S first) i kp H). f_equal. f_equal. lia.
Qed.

Lemma avatar_report_length regs first :
  length (avatar_report first regs) = length regs.
Proof. revert first. induction regs; intros; simpl; [done|]. by rewrite IHregs. Qed.

Lemma setAgentMaxSpeed_last pre a dt d calls v :
  setAgentMaxSpeed (mkRVOSimulator (pre ++ [a]) dt d calls) (length pre) v =
    Ok (mkRVOSimulator
          (pre ++ [mkAgent (position_ a) (velocity_ a) (prefVelocity_ a) v])
          dt d (CallSetAgentMaxSpeed (length pre) v :: calls)).
Proof.
  unfold setAgentMaxSpeed. cbn [agents_ timeStep_ defaultAgent_ calls_].
  rewrite lookup_app_r by lia. rewrite Nat.sub_diag. cbn [lookup list_lookup].
  replace (length pre) with (length pre + 0)%nat at 1 by lia.
  rewrite insert_app_r. reflexivity.
Qed.

(** What [setupSimulation] leaves behind when the participant has data: the
    participant, then the registered avatars, then the goal with maximum
    speed zero, appended to the agents already there. *)
Lemma setupSimulation_spec e p0 ps :
  positions (participantData e) = p0 :: ps ->
  let regs := registered_avatars (avatarData e) avatar_ordinals in
  let n := length (agents_ (sim e)) in
  setupSimulation e =
    Ok (set_sim e
          (mkRVOSimulator
             (agents_ (sim e) ++ new_agent (sim e) p0 ::
                map (fun kp => new_agent (sim e) kp.2) regs ++
                [mkAgent goalPos vzero vzero (float_lit 0)])
             (timeStep_ (sim e)) (defaultAgent_ (sim e))
             (CallSetAgentMaxSpeed (S (n + length regs)) (float_lit 0) ::
              CallAddAgent goalPos ::
              rev (map (fun kp => CallAddAgent kp.2) regs) ++
              CallAddAgent p0 :: calls_ (sim e))),
        AddedParticipant n :: avatar_report (S n) regs ++
          [AddedGoal (S (n + length regs))]).
Proof.
  intros Hp regs n. subst regs n. unfold setupSimulation, setup_participant.
  generalize avatar_ordinals. intros l.
  rewrite Hp. unfold addAgent at 1. cbv beta iota zeta.
  rewrite setup_avatars_spec.
  destruct e as [s m pd cs ms su tl].
  cbn [sim set_sim agents_ timeStep_ defaultAgent_ calls_ avatarData
       participantData currentStep maxSteps subject trial new_agent].
  set (regs := registered_avatars m l). clearbody regs.
  unfold addAgent. cbv beta iota zeta.
  cbn [sim set_sim agents_ timeStep_ defaultAgent_ calls_ avatarData
       participantData currentStep maxSteps subject trial].
  rewrite setAgentMaxSpeed_last.
  cbn [position_ velocity_ prefVelocity_ maxSpeed_ mbind result_bind].
  rewrite !length_app, length_map. cbn [length].
  replace (length (agents_ s) + 1 + length regs)%nat
    with (S (length (agents_ s) + length regs)) by lia.
  replace (length (agents_ s) + 1)%nat with (S (length (agents_ s))) by lia.
  rewrite <- !app_assoc. reflexivity.
Qed.

(** C3. Setup on an oracle without agents, for a participant with data and
    the [N] avatars that have data (the loop offers the ordinals 1 to 10; the
    goal is always one, so G = 1): the report and the oracle agree that handle
    0 is the participant at its first sample, handles 1 to [N] are the avatars
    in the order of their ordinals, each at the first sample of its own
    trajectory, and handle [N + 1] is the goal, whose maximum speed is zero. *)
Theorem setup_registration_order e p0 ps :
  agents_ (sim e) = [] ->
  positions (participantData e) = p0 :: ps ->
  let regs := registered_avatars (avatarData e) avatar_ordinals in
  let N := length regs in
  exists e' report, setupSimulation e = Ok (e', report) /\
    report = AddedParticipant 0 :: avatar_report 1 regs ++ [AddedGoal (S N)] /\
    getNumAgents (sim e') = (N + 2)%nat /\
    position_ <$> agents_ (sim e') !! 0%nat = Some p0 /\
    (forall i kp, regs !! i = Some kp ->
       report !! S i = Some (AddedAvatar kp.1 (S i)) /\
       position_ <$> agents_ (sim e') !! S i = Some kp.2 /\
       exists avatar tr, avatar ∈ avatar_ordinals /\ kp.1 = avatar_key avatar /\
         avatarData e !! kp.1 = Some tr /\ positions tr !! 0%nat = Some kp.2) /\
    (exists g, agents_ (sim e') !! S N = Some g /\
       position_ g = goalPos /\ maxSpeed_ g = float_lit 0).
Proof.
  intros Hags Hp regs N.
  pose proof (setupSimulation_spec e p0 ps Hp) as Hsetup.
  cbv zeta in Hsetup. fold regs in Hsetup. rewrite Hags in Hsetup.
  cbn [length app] in Hsetup. fold N in Hsetup.
  eexists _, _. split; [exact Hsetup|].
  cbn [set_sim sim agents_ getNumAgents].
  split; [reflexivity|].
  split.
  { unfold getNumAgents. cbn [agents_ length].
    rewrite length_app, length_map. cbn [length]. lia. }
  split; [reflexivity|].
  split.
  - intros i kp Hi.
    assert (Hlt : (i < length regs)%nat) by (by eapply lookup_lt_Some).
    split; [|split].
    + rewrite lookup_cons_ne_0 by lia. cbn [Nat.pred].
      rewrite lookup_app_l by (rewrite avatar_report_length; lia).
      by rewrite (avatar_report_lookup regs 1 i kp Hi).
    + rewrite lookup_cons_ne_0 by lia. cbn [Nat.pred].
      rewrite lookup_app_l by (rewrite length_map; lia).
      rewrite list_lookup_fmap, Hi. reflexivity.
    + destruct (registered_avatars_sound (avatarData e) avatar_ordinals kp)
        as (a & tr & Ha & Hk & Hm & H0).
      { by eapply list_elem_of_lookup_2. }
      exists a, tr. rewrite Hk. done.
  - eexists. split.
    + rewrite lookup_cons_ne_0 by lia. cbn [Nat.pred].
      rewrite lookup_app_r by (rewrite length_map; lia).
      rewrite length_map. fold N. rewrite Nat.sub_diag. reflexivity.
    + split; reflexivity.
Qed.

Lemma full_roster_participant e :
  full_roster e = true -> exists p0 ps, positions (participantData e) = p0 :: ps.
Proof.
  unfold full_roster, has_samples. intros H. apply andb_prop in H as [H _].
  destruct (positions (participantData e)) as [|p0 ps]; [done|]. eauto.
Qed.

Lemma full_roster_avatar e a :
  full_roster e = true -> a ∈ avatar_ordinals ->
  exists tr, avatarData e !! avatar_key a = Some tr /\ 1 <= size (positions tr).
Proof.
  unfold full_roster. intros H Ha. apply andb_prop in H as [_ H].
  rewrite forallb_forall in H. apply list_elem_of_In in Ha.
  specialize (H a Ha).
  destruct (avatarData e !! avatar_key a) as [tr|]; [|done].
  exists tr. split; [done|]. unfold has_samples in H.
  destruct (positions tr); [done|]. unfold size. simpl. lia.
Qed.

Lemma count_doStep_app l1 l2 :
  count_doStep (l1 ++ l2) = (count_doStep l1 + count_doStep l2)%nat.
Proof.
  induction l1 as [|c l1 IH]; [reflexivity|].
  destruct c; cbn [app count_doStep]; rewrite IH; reflexivity.
Qed.

Lemma count_doStep_adds (regs : list (string * Vector2 float)) :
  count_doStep (rev (map (fun kp => CallAddAgent kp.2) regs)) = 0%nat.
Proof.
  induction regs as [|kp regs IH]; [reflexivity|].
  cbn [map rev]. rewrite count_doStep_app, IH. reflexivity.
Qed.

Lemma avatar_report_no_goal regs first g : AddedGoal g ∈ avatar_report first regs -> False.
Proof.
  revert first. induction regs as [|kp regs IH]; intros first; cbn [avatar_report].
  - by intros ?%elem_of_nil.
  - intros [?|?]%elem_of_cons; [done|]. by eapply IH.
Qed.

(** Registration on a newly configured oracle when the participant and all
    ten avatars have data: twelve agents, none with a preferred velocity yet,
    the last of them the goal with maximum speed zero. *)
Lemma setup_full_roster e :
  sim e = sim ExperimentSimulation_new -> full_roster e = true ->
  exists e' report, setupSimulation e = Ok (e', report) /\
    avatarData e' = avatarData e /\ participantData e' = participantData e /\
    currentStep e' = currentStep e /\ maxSteps e' = maxSteps e /\
    timeStep_ (sim e') = TIME_STEP /\
    length (agents_ (sim e')) = 12%nat /\
    (exists g, agents_ (sim e') !! 11%nat = Some g /\
               position_ g = goalPos /\ maxSpeed_ g = float_lit 0) /\
    goal_calm (calls_ (sim e')) /\
    count_doStep (calls_ (sim e')) = 0%nat /\
    (forall g, AddedGoal g ∈ report <-> g = 11%nat) /\
    (exists a p0 ps, agents_ (sim e') !! 0%nat = Some a /\
       positions (participantData e) = p0 :: ps /\
       position_ a = p0 /\ prefVelocity_ a = vzero).
Proof.
  intros Hs Hfull.
  destruct (full_roster_participant e Hfull) as (p0 & ps & Hp).
  pose proof (setupSimulation_spec e p0 ps Hp) as Hsetup.
  cbv zeta in Hsetup.
  assert (Hregs : length (registered_avatars (avatarData e) avatar_ordinals) = 10%nat).
  { rewrite registered_avatars_length; [reflexivity|].
    unfold full_roster in Hfull. by apply andb_prop in Hfull as [_ ?]. }
  set (regs := registered_avatars (avatarData e) avatar_ordinals) in *.
  clearbody regs.
  rewrite Hs in Hsetup. cbn [sim ExperimentSimulation_new RVOSimulator_configure
    agents_ timeStep_ defaultAgent_ calls_ length app] in Hsetup.
  rewrite Hregs in Hsetup.
  eexists _, _. split; [exact Hsetup|].
  cbn [set_sim sim avatarData participantData currentStep maxSteps agents_
       timeStep_ calls_].
  split; [done|]. split; [done|]. split; [done|]. split; [done|]. split; [done|].
  split. { cbn [length]. rewrite length_app, length_map, Hregs. reflexivity. }
  split.
  { eexists. split.
    - rewrite lookup_cons_ne_0 by lia. cbn [Nat.pred].
      rewrite lookup_app_r by (rewrite length_map; lia).
      rewrite length_map, Hregs. reflexivity.
    - split; reflexivity. }
  split.
  { intros v Hin. rewrite !elem_of_cons, elem_of_app, elem_of_cons in Hin.
    destruct Hin as [?|[?|[Hin|[?|Hin]]]]; try done.
    - apply list_elem_of_In, in_rev, in_map_iff in Hin.
      by destruct Hin as (? & ? & ?).
    - by apply elem_of_nil in Hin. }
  split.
  { cbn [count_doStep]. rewrite count_doStep_app, count_doStep_adds. reflexivity. }
  split.
  { intros g. rewrite elem_of_cons, elem_of_app, list_elem_of_singleton.
    split.
    - intros [?|[Hin|Heq]]; [done| |by inversion Heq].
      by apply avatar_report_no_goal in Hin.
    - intros ->. right. right. reflexivity. }
  eexists _, p0, ps. split; [reflexivity|]. split; [done|]. split; reflexivity.
Qed.

End RegistrationFacts.

(** ** One tick *)

Section TickFacts.
Context `{FO : FloatOps}.
Implicit Types (e : ExperimentSimulation) (s : RVOSimulator).

Lemma frame_refl e : frame e e.
Proof. unfold frame. tauto. Qed.

Lemma frame_trans e1 e2 e3 : frame e1 e2 -> frame e2 e3 -> frame e1 e3.
Proof.
  unfold frame.
  intros (A1 & B1 & C1 & D1 & E1 & F1 & G1 & H1) (A2 & B2 & C2 & D2 & E2 & F2 & G2 & H2).
  repeat split; try congruence. auto.
Qed.

Lemma frame_length e e' :
  frame e e' -> length (agents_ (sim e')) = length (agents_ (sim e)).
Proof.
  intros (_ & _ & _ & _ & _ & Hb & _).
  apply (f_equal length) in Hb. by rewrite !length_fmap in Hb.
Qed.

Lemma to_size_t_int z : 0 <= z <= INT_MAX -> to_size_t z = z.
Proof. intros. apply to_size_t_small. unfold INT_MAX, SIZE_MAX in *. lia. Qed.

(** Setting a preferred velocity by a handle that exists. *)
Lemma setAgentPrefVelocity_frame e h v :
  (h < length (agents_ (sim e)))%nat -> (h = 11%nat -> v = vzero) ->
  exists s', setAgentPrefVelocity (sim e) h v = Ok s' /\
    frame e (set_sim e s') /\
    prefVelocityOf s' h = Some v /\
    (forall h', h' <> h -> agents_ s' !! h' = agents_ (sim e) !! h').
Proof.
  intros Hh Hgoal.
  destruct (lookup_lt_is_Some_2 _ _ Hh) as [a Ha].
  unfold setAgentPrefVelocity. rewrite Ha. eexists. split; [reflexivity|].
  destruct e as [s m pd cs ms su tl]. cbn [sim set_sim] in *.
  split; [|split].
  - unfold frame. cbn [sim set_sim avatarData participantData currentStep maxSteps
                       agents_ timeStep_ calls_ count_doStep].
    repeat split.
    + rewrite list_fmap_insert. apply list_insert_id.
      rewrite list_lookup_fmap, Ha. reflexivity.
    + intros Hc v' Hin. apply elem_of_cons in Hin as [Heq|Hin]; [|by apply Hc].
      inversion Heq; subst. by apply Hgoal.
  - unfold prefVelocityOf. cbn [agents_].
    rewrite list_lookup_insert_eq by done. reflexivity.
  - intros h' Hne. cbn [agents_]. by rewrite list_lookup_insert_ne.
Qed.

(** The participant block: handle 0 gets the estimate while the trajectory
    lasts; afterwards nothing is written. *)
Lemma update_participant_spec e :
  0 <= currentStep e <= INT_MAX -> (0 < length (agents_ (sim e)))%nat ->
  exists e1, update_participant e = Ok e1 /\ frame e e1 /\
    (forall h, h <> 0%nat -> agents_ (sim e1) !! h = agents_ (sim e) !! h) /\
    if currentStep e <? size (positions (participantData e))
    then exists v, estimate (participantData e) (currentStep e) = Ok v /\
                   prefVelocityOf (sim e1) 0 = Some v
    else e1 = e.
Proof.
  intros Hcs Hlen. unfold update_participant.
  rewrite (to_size_t_int _ Hcs).
  destruct (currentStep e <? size (positions (participantData e))) eqn:Hlt.
  - apply Z.ltb_lt in Hlt.
    destruct (estimate_total (participantData e) (currentStep e) Hcs Hlt) as [v Hv].
    rewrite calculatePreferredVelocity_estimate, Hv.
    destruct (setAgentPrefVelocity_frame e 0 v Hlen) as (s' & Hs & Hf & Hp & Ho); [done|].
    exists (set_sim e s'). cbn [mbind result_bind]. rewrite Hs.
    split; [done|]. split; [done|]. split; [done|]. exists v. done.
  - exists e. split; [done|]. split; [apply frame_refl|]. done.
Qed.

(** The body of the avatar loop, for an ordinal of the loop. *)
Lemma update_avatar_spec e avatar :
  0 <= currentStep e <= INT_MAX -> 1 <= avatar <= 10 ->
  (Z.to_nat avatar < length (agents_ (sim e)))%nat ->
  exists e1, update_avatar e avatar = Ok e1 /\ frame e e1 /\
    (forall h, h <> Z.to_nat avatar -> agents_ (sim e1) !! h = agents_ (sim e) !! h) /\
    forall tr, avatarData e !! avatar_key avatar = Some tr ->
      if currentStep e <? size (positions tr)
      then exists v, estimate tr (currentStep e) = Ok v /\
                     prefVelocityOf (sim e1) (Z.to_nat avatar) = Some v
      else e1 = e.
Proof.
  intros Hcs Ha Hlen. unfold update_avatar.
  rewrite (to_size_t_int _ Hcs).
  destruct (avatarData e !! avatar_key avatar) as [tr|] eqn:Hk.
  2:{ exists e. split; [done|]. split; [apply frame_refl|]. done. }
  destruct (currentStep e <? size (positions tr)) eqn:Hlt.
  - pose proof (proj1 (Z.ltb_lt _ _) Hlt) as Hlt'.
    destruct (estimate_total tr (currentStep e) Hcs Hlt') as [v Hv].
    rewrite calculatePreferredVelocity_estimate, Hv.
    destruct (setAgentPrefVelocity_frame e (Z.to_nat avatar) v Hlen)
      as (s' & Hs & Hf & Hp & Ho); [lia|].
    exists (set_sim e s'). cbn [mbind result_bind]. rewrite Hs.
    split; [done|]. split; [done|]. split; [done|].
    intros tr' [= <-]. rewrite Hlt. exists v. done.
  - exists e. split; [done|]. split; [apply frame_refl|]. split; [done|].
    intros tr' [= <-]. by rewrite Hlt.
Qed.

Lemma avatar_ordinals_range avatar : avatar ∈ avatar_ordinals -> 1 <= avatar <= 10.
Proof. unfold avatar_ordinals. rewrite elem_of_seqZ. lia. Qed.

Lemma avatar_ordinals_NoDup : NoDup avatar_ordinals.
Proof. apply NoDup_seqZ. Qed.

(** The avatar loop over ordinals without repetition: every avatar of the
    loop that has data and is not exhausted gets its estimate, and no other
    handle is written. *)
Lemma update_avatars_spec (l : list Z) : forall e,
  0 <= currentStep e <= INT_MAX ->
  (forall a, a ∈ l -> 1 <= a <= 10) -> NoDup l ->
  (11 <= length (agents_ (sim e)))%nat ->
  exists e', for_each update_avatar e l = Ok e' /\ frame e e' /\
    (forall h, (forall a, a ∈ l -> h <> Z.to_nat a) ->
       agents_ (sim e') !! h = agents_ (sim e) !! h) /\
    forall a tr, a ∈ l -> avatarData e !! avatar_key a = Some tr ->
      if currentStep e <? size (positions tr)
      then exists v, estimate tr (currentStep e) = Ok v /\
                     prefVelocityOf (sim e') (Z.to_nat a) = Some v
      else agents_ (sim e') !! Z.to_nat a = agents_ (sim e) !! Z.to_nat a.
Proof.
  induction l as [|a l IH]; intros e Hcs Hr Hnd Hlen.
  - exists e. split; [done|]. split; [apply frame_refl|]. split; [done|].
    intros a tr Ha. by apply elem_of_nil in Ha.
  - apply NoDup_cons in Hnd as [Hnotin Hnd].
    assert (Ha : 1 <= a <= 10) by (apply Hr; left).
    destruct (update_avatar_spec e a Hcs Ha) as (e1 & Hu & Hf1 & Ho1 & Hp1); [lia|].
    pose proof Hf1 as (Hav & _ & Hc1 & _).
    destruct (IH e1) as (e' & Hl & Hf & Ho & Hp).
    { by rewrite Hc1. }
    { intros a' Ha'. apply Hr. by right. }
    { done. }
    { by rewrite (frame_length _ _ Hf1). }
    assert (Hfar : forall a', a' ∈ l -> Z.to_nat a <> Z.to_nat a').
    { intros a' Ha' Heq. assert (1 <= a' <= 10) by (apply Hr; by right).
      apply Hnotin. replace a with a' by lia. done. }
    exists e'. cbn [for_each mbind result_bind]. rewrite Hu.
    split; [done|]. split; [by eapply frame_trans|]. split.
    + intros h Hh. rewrite Ho by (intros a' Ha'; apply Hh; by right).
      apply Ho1. apply Hh. left.
    + intros a' tr Ha' Hk. apply elem_of_cons in Ha' as [->|Ha'].
      * specialize (Hp1 tr Hk).
        destruct (currentStep e <? size (positions tr)).
        -- destruct Hp1 as (v & Hv & Hpv). exists v. split; [done|].
           unfold prefVelocityOf in *. by rewrite (Ho _ Hfar).
        -- subst e1. by apply Ho.
      * rewrite <- Hav in Hk. specialize (Hp a' tr Ha' Hk).
        rewrite Hc1 in Hp.
        destruct (currentStep e <? size (positions tr)); [done|].
        rewrite Hp. apply Ho1. intros Heq. by apply (Hfar a').
Qed.

(** One call of [updateAgentPositions] inside the loop, with at least the
    twelve handles it addresses: it returns, and afterwards the goal holds the
    zero vector and every agent with data that is not exhausted holds its
    estimate for the current tick. *)
Lemma updateAgentPositions_spec e :
  0 <= currentStep e <= INT_MAX -> currentStep e < maxSteps e ->
  (12 <= length (agents_ (sim e)))%nat ->
  exists e1, updateAgentPositions e = Ok e1 /\ frame e e1 /\
    prefVelocityOf (sim e1) 11 = Some vzero /\
    (if currentStep e <? size (positions (participantData e))
     then exists v, estimate (participantData e) (currentStep e) = Ok v /\
                    prefVelocityOf (sim e1) 0 = Some v
     else prefVelocityOf (sim e1) 0 = prefVelocityOf (sim e) 0) /\
    forall a tr, a ∈ avatar_ordinals -> avatarData e !! avatar_key a = Some tr ->
      if currentStep e <? size (positions tr)
      then exists v, estimate tr (currentStep e) = Ok v /\
                     prefVelocityOf (sim e1) (Z.to_nat a) = Some v
      else prefVelocityOf (sim e1) (Z.to_nat a) = prefVelocityOf (sim e) (Z.to_nat a).
Proof.
  intros Hcs Hlt Hlen. unfold updateAgentPositions.
  replace (maxSteps e <=? currentStep e) with false
    by (symmetry; apply Z.leb_gt; lia).
  destruct (update_participant_spec e Hcs) as (e1 & Hu1 & Hf1 & Ho1 & Hp1); [lia|].
  pose proof Hf1 as (Hav1 & Hpd1 & Hc1 & _).
  destruct (update_avatars_spec avatar_ordinals e1) as (e2 & Hu2 & Hf2 & Ho2 & Hp2).
  { by rewrite Hc1. }
  { apply avatar_ordinals_range. }
  { apply avatar_ordinals_NoDup. }
  { rewrite (frame_length _ _ Hf1). lia. }
  assert (Hf12 : frame e e2) by (by eapply frame_trans).
  destruct (setAgentPrefVelocity_frame e2 11 vzero) as (s' & Hs & Hf3 & Hp3 & Ho3).
  { rewrite (frame_length _ _ Hf12). lia. }
  { done. }
  exists (set_sim e2 s'). rewrite Hu1. cbn [mbind result_bind].
  rewrite Hu2. cbn [mbind result_bind]. rewrite Hs.
  split; [done|]. split; [by eapply frame_trans|]. split; [done|].
  assert (Hfar : forall a, a ∈ avatar_ordinals -> 0%nat <> Z.to_nat a /\ Z.to_nat a <> 11%nat).
  { intros a Ha. apply avatar_ordinals_range in Ha. lia. }
  split.
  - assert (H0 : agents_ s' !! 0%nat = agents_ (sim e1) !! 0%nat).
    { rewrite Ho3 by lia. apply Ho2. intros a Ha. by apply Hfar. }
    destruct (currentStep e <? size (positions (participantData e))).
    + destruct Hp1 as (v & Hv & Hpv). exists v. split; [done|].
      unfold prefVelocityOf in *. cbn [sim set_sim]. by rewrite H0.
    + subst e1. unfold prefVelocityOf. cbn [sim set_sim]. by rewrite H0.
  - intros a tr Ha Hk. rewrite <- Hav1 in Hk. specialize (Hp2 a tr Ha Hk).
    rewrite Hc1 in Hp2.
    assert (Ha' : agents_ s' !! Z.to_nat a = agents_ (sim e2) !! Z.to_nat a).
    { apply Ho3. by apply Hfar. }
    destruct (currentStep e <? size (positions tr)).
    + destruct Hp2 as (v & Hv & Hpv). exists v. split; [done|].
      unfold prefVelocityOf in *. cbn [sim set_sim]. by rewrite Ha'.
    + unfold prefVelocityOf. cbn [sim set_sim]. rewrite Ha', Hp2.
      f_equal. apply Ho1. apply Hfar in Ha. lia.
Qed.

End TickFacts.

(** ** The run loop *)

Section RunFacts.
Context `{FO : FloatOps}.
Variable advance : float -> list Agent -> list Agent.
Implicit Types (e : ExperimentSimulation) (out : list Row).

Lemma run_tick_unfold e out e1 :
  updateAgentPositions e = Ok e1 ->
  run_tick advance (e, out) = Ok (after_tick advance e1, rows_after_tick advance e1 out).
Proof. intros H. unfold run_tick. rewrite H. reflexivity. Qed.

Lemma run_ticks_snoc n : forall st,
  run_ticks advance (S n) st = st' ← run_ticks advance n st; run_tick advance st'.
Proof.
  induction n as [|n IH]; intros st.
  - cbn [run_ticks mbind result_bind]. by destruct (run_tick advance st).
  - change (run_ticks advance (S (S n)) st)
      with (st' ← run_tick advance st; run_ticks advance (S n) st').
    change (run_ticks advance (S n) st)
      with (st' ← run_tick advance st; run_ticks advance n st').
    destruct (run_tick advance st) as [st1|]; cbn [mbind result_bind]; [|done].
    apply IH.
Qed.

(** Induction over the ticks of a run. A property [P k] of the object and the
    rows after [k] ticks holds after [n] ticks when it holds at the start and
    every tick carries it over; the run itself returns, and the counter has
    moved by [n]. *)
Lemma run_ticks_ind (P : nat -> ExperimentSimulation -> list Row -> Prop) e0 out0 n :
  keeps_roster advance ->
  0 <= currentStep e0 -> currentStep e0 + Z.of_nat n <= maxSteps e0 ->
  maxSteps e0 <= INT_MAX ->
  (12 <= length (agents_ (sim e0)))%nat ->
  P 0%nat e0 out0 ->
  (forall k e out e1, (k < n)%nat -> P k e out ->
     currentStep e = currentStep e0 + Z.of_nat k ->
     maxSteps e = maxSteps e0 ->
     avatarData e = avatarData e0 ->
     participantData e = participantData e0 ->
     length (agents_ (sim e)) = length (agents_ (sim e0)) ->
     updateAgentPositions e = Ok e1 -> frame e e1 ->
     P (S k) (after_tick advance e1) (rows_after_tick advance e1 out)) ->
  exists e' out', run_ticks advance n (e0, out0) = Ok (e', out') /\
    P n e' out' /\
    currentStep e' = currentStep e0 + Z.of_nat n /\
    maxSteps e' = maxSteps e0 /\
    avatarData e' = avatarData e0 /\
    participantData e' = participantData e0 /\
    length (agents_ (sim e')) = length (agents_ (sim e0)).
Proof.
  intros Hk H0 Hn Hmax Hlen HP0 Hstep.
  induction n as [|n IH].
  - exists e0, out0. cbn [run_ticks]. repeat split; try done. lia.
  - destruct IH as (e & out & Hrun & HP & Hc & Hm & Hav & Hpd & Hl).
    { lia. }
    { intros k e out e1 Hlt. apply Hstep. lia. }
    destruct (updateAgentPositions_spec e) as (e1 & Hu & Hf & _); [lia..|].
    pose proof Hf as (Hav1 & Hpd1 & Hc1 & Hm1 & _).
    exists (after_tick advance e1), (rows_after_tick advance e1 out).
    rewrite run_ticks_snoc, Hrun. cbn [mbind result_bind].
    split; [by apply run_tick_unfold|].
    split; [apply (Hstep n e out e1); [lia|done..]|].
    cbn [after_tick after_doStep set_currentStep set_sim currentStep maxSteps
         avatarData participantData sim doStep agents_].
    rewrite Hk, (frame_length _ _ Hf).
    repeat split; try congruence. lia.
Qed.

Lemma runSimulation_unfold e :
  runSimulation advance e =
    run_ticks advance (Z.to_nat (maxSteps e)) (set_currentStep e 0, []).
Proof. reflexivity. Qed.

(** C6. With the twelve handles the tick addresses registered, and whatever
    the trajectories are (long, short, empty or missing), [runSimulation]
    returns after calling [doStep] exactly [maxSteps] times: the call history
    grows by that many [doStep] calls, and the loop ends with the counter at
    [maxSteps], not before. *)
Theorem run_calls_doStep_maxSteps_times e :
  keeps_roster advance ->
  0 <= maxSteps e <= INT_MAX ->
  (12 <= getNumAgents (sim e))%nat ->
  exists e' out, runSimulation advance e = Ok (e', out) /\
    count_doStep (calls_ (sim e')) =
      (count_doStep (calls_ (sim e)) + Z.to_nat (maxSteps e))%nat /\
    currentStep e' = maxSteps e.
Proof.
  intros Hk Hm Hlen. rewrite runSimulation_unfold.
  destruct (run_ticks_ind
              (fun k e' _ => count_doStep (calls_ (sim e')) =
                             (count_doStep (calls_ (sim e)) + k)%nat)
              (set_currentStep e 0) [] (Z.to_nat (maxSteps e)))
    as (e' & out & Hrun & HP & Hc & _); try done.
  - cbn. lia.
  - cbn. lia.
  - intros k e1 out e2 _ HP _ _ _ _ _ _ (_ & _ & _ & _ & _ & _ & Hcount & _).
    cbn. rewrite Hcount, HP. lia.
  - exists e', out. split; [done|]. split; [done|].
    rewrite Hc. cbn. lia.
Qed.

Lemma frame_body_fwd e e' h a :
  frame e e' -> agents_ (sim e) !! h = Some a ->
  exists a', agents_ (sim e') !! h = Some a' /\ agent_body a' = agent_body a.
Proof.
  intros (_ & _ & _ & _ & _ & Hb & _) Hl.
  assert (Hm : (agent_body <$> agents_ (sim e)) !! h = Some (agent_body a))
    by (by rewrite list_lookup_fmap, Hl).
  rewrite <- Hb, list_lookup_fmap in Hm.
  destruct (agents_ (sim e') !! h) as [a'|]; [|done].
  exists a'. split; [done|]. simpl in Hm. congruence.
Qed.

Lemma log_rows_elem e r :
  r ∈ log_rows e ->
  exists a, agents_ (sim e) !! row_agent_id r = Some a /\
    row_step r = currentStep e /\
    row_x r = x_ (position_ a) /\ row_y r = y_ (position_ a) /\
    row_vx r = x_ (velocity_ a) /\ row_vy r = y_ (velocity_ a) /\
    row_speed r = vabs (velocity_ a).
Proof.
  unfold log_rows. intros Hin.
  apply elem_of_lookup_imap_1 in Hin as (i & a & -> & Ha).
  exists a. cbn. done.
Qed.

Lemma goal_at_rest_tick e out e1 :
  keeps_commands advance -> pins_static advance ->
  goal_at_rest e out -> frame e e1 ->
  goal_at_rest (after_tick advance e1) (rows_after_tick advance e1 out).
Proof.
  intros Hkc Hpin (Hcalm & (g & Hg & Hms) & Hrows) Hf.
  destruct (frame_body_fwd e e1 11 g Hf Hg) as (g1 & Hg1 & Hb1).
  destruct (Hkc (timeStep_ (sim e1)) _ _ _ Hg1) as (g2 & Hg2 & _ & Hms2).
  assert (Hms' : maxSpeed_ g2 = float_lit 0).
  { rewrite Hms2. unfold agent_body in Hb1. congruence. }
  split; [|split].
  - cbn. intros v [?|Hin]%elem_of_cons; [done|].
    destruct Hf as (_ & _ & _ & _ & _ & _ & _ & Hc). by apply Hc.
  - exists g2. split; [exact Hg2|exact Hms'].
  - unfold rows_after_tick. intros r Hin Hid.
    destruct (Z.rem (currentStep e1) 10 =? 0); [|by apply Hrows].
    apply elem_of_app in Hin as [Hin|Hin]; [by apply Hrows|].
    apply log_rows_elem in Hin as (a & Ha & _ & _ & _ & Hvx & Hvy & _).
    rewrite Hid in Ha. cbn in Ha. rewrite Hg2 in Ha. inversion Ha; subst a.
    rewrite Hvx, Hvy, (Hpin _ _ _ _ Hg2 Hms'). done.
Qed.

(** C8. After setup on a newly constructed driver whose participant and ten
    avatars have data, the goal is handle 11. Over the whole run no call ever
    gives handle 11 a preferred velocity other than the zero vector, and every
    row written for handle 11 has velocity components (0, 0); the latter rests
    on the oracle keeping the commands it was given and pinning an agent whose
    maximum speed is zero. *)
Theorem goal_never_driven e0 :
  keeps_roster advance -> keeps_commands advance -> pins_static advance ->
  sim e0 = sim ExperimentSimulation_new -> full_roster e0 = true ->
  0 <= maxSteps e0 <= INT_MAX ->
  exists e report e' out,
    setupSimulation e0 = Ok (e, report) /\
    (forall g, AddedGoal g ∈ report <-> g = 11%nat) /\
    runSimulation advance e = Ok (e', out) /\
    (forall v, CallSetAgentPrefVelocity 11 v ∈ calls_ (sim e') -> v = vzero) /\
    (forall r, r ∈ out -> row_agent_id r = 11%nat ->
       row_vx r = float_lit 0 /\ row_vy r = float_lit 0).
Proof.
  intros Hkr Hkc Hpin Hs Hfull Hm.
  destruct (setup_full_roster e0 Hs Hfull)
    as (e & report & Hsetup & _ & _ & _ & Hms & _ & Hlen & Hgoal & Hcalm & _ & Hrep & _).
  destruct (run_ticks_ind (fun _ => goal_at_rest)
              (set_currentStep e 0) [] (Z.to_nat (maxSteps e)))
    as (e' & out & Hrun & (Hc' & _ & Hrows) & _); try done.
  - cbn. lia.
  - cbn. lia.
  - cbn. lia.
  - split; [exact Hcalm|]. split; [|by intros r ?%elem_of_nil].
    destruct Hgoal as (g & Hg & _ & Hg0). by exists g.
  - intros k e1 out e2 _ HP _ _ _ _ _ _ Hf. by apply (goal_at_rest_tick e1).
  - exists e, report, e', out. done.
Qed.

Lemma run_ticks_add a : forall b st,
  run_ticks advance (a + b) st = st' ← run_ticks advance a st; run_ticks advance b st'.
Proof.
  induction a as [|a IH]; intros b st; [reflexivity|].
  cbn [Nat.add run_ticks mbind result_bind].
  destruct (run_tick advance st) as [st1|]; [|reflexivity].
  apply IH.
Qed.

Lemma prefVelocityOf_after_tick e h v :
  keeps_commands advance ->
  prefVelocityOf (sim e) h = Some v -> prefVelocityOf (sim (after_tick advance e)) h = Some v.
Proof.
  intros Hkc. unfold prefVelocityOf. cbn.
  destruct (agents_ (sim e) !! h) as [a|] eqn:Ha; [|done].
  destruct (Hkc (timeStep_ (sim e)) _ _ _ Ha) as (a' & -> & Hp & _).
  cbn. congruence.
Qed.

Lemma update_prefs_ready e0 e e1 :
  full_roster e0 = true ->
  avatarData e = avatarData e0 -> participantData e = participantData e0 ->
  0 <= currentStep e <= INT_MAX -> currentStep e < maxSteps e ->
  (12 <= length (agents_ (sim e)))%nat ->
  spent_hold e0 (currentStep e) e ->
  updateAgentPositions e = Ok e1 ->
  prefs_ready e0 (currentStep e) e1.
Proof.
  intros Hfull Hav Hpd Hcs Hlt Hlen (Hsp & Hsa) Hu.
  destruct (updateAgentPositions_spec e Hcs Hlt Hlen) as (e1' & Hu' & _ & Hg & Hp & Ha).
  rewrite Hu in Hu'. inversion Hu'; subst e1'. clear Hu'.
  rewrite Hpd in Hp. rewrite Hav in Ha.
  split; [exact Hg|]. split.
  - destruct (full_roster_participant e0 Hfull) as (p0 & ps & Hpos).
    assert (H1 : 1 <= size (positions (participantData e0)))
      by (rewrite Hpos; unfold size; cbn [length]; lia).
    destruct (currentStep e <? size (positions (participantData e0))) eqn:Hb.
    + destruct Hp as (v & Hv & Hpv). exists v. split; [done|]. split; [done|].
      apply Z.ltb_lt in Hb. lia.
    + apply Z.ltb_ge in Hb. exists vzero.
      split; [apply estimate_past_end; lia|].
      split; [|done]. rewrite Hp. by apply Hsp.
  - intros a Hin.
    destruct (full_roster_avatar e0 a Hfull Hin) as (tr & Hk & H1).
    specialize (Ha a tr Hin Hk). exists tr.
    destruct (currentStep e <? size (positions tr)) eqn:Hb.
    + destruct Ha as (v & Hv & Hpv). exists v. split; [done|]. split; [done|].
      split; [done|]. apply Z.ltb_lt in Hb. lia.
    + apply Z.ltb_ge in Hb. exists vzero. split; [done|].
      split; [apply estimate_past_end; lia|].
      split; [|done]. rewrite Ha. by apply (Hsa a tr).
Qed.

Lemma spent_hold_step e0 k e1 :
  keeps_commands advance -> 0 <= k <= INT_MAX ->
  prefs_ready e0 k e1 -> spent_hold e0 (k + 1) (after_tick advance e1).
Proof.
  intros Hkc Hk (_ & (v & Hv & Hpv & Hz) & Ha). split.
  - intros Hs. apply prefVelocityOf_after_tick; [done|]. rewrite Hpv. f_equal.
    destruct (decide (size (positions (participantData e0)) <= k)) as [?|Hn]; [by apply Hz|].
    rewrite estimate_past_end in Hv by lia. congruence.
  - intros a tr Hin Hkey Hs.
    destruct (Ha a Hin) as (tr' & v' & Hkey' & Hv' & Hpv' & Hz').
    rewrite Hkey in Hkey'. inversion Hkey'; subst tr'.
    apply prefVelocityOf_after_tick; [done|]. rewrite Hpv'. f_equal.
    destruct (decide (size (positions tr) <= k)) as [?|Hn]; [by apply Hz'|].
    rewrite estimate_past_end in Hv' by lia. congruence.
Qed.

(** C4. After setup on a newly constructed driver whose participant and ten
    avatars have data, take any tick [k] of the run. The run reaches it; there
    [updateAgentPositions] returns an object [e1], and it is the oracle of
    [e1] that [doStep] is called on. In that oracle all twelve registered
    agents hold the preferred velocity of tick [k]: the participant and each
    avatar [estimate(trajectory, k)], the goal the zero vector; and an agent
    whose trajectory has run out by tick [k] holds the zero vector. *)
Theorem prefs_set_before_every_doStep e0 (k : nat) :
  keeps_roster advance -> keeps_commands advance ->
  sim e0 = sim ExperimentSimulation_new -> full_roster e0 = true ->
  maxSteps e0 <= INT_MAX -> Z.of_nat k < maxSteps e0 ->
  exists e report ek outk e1,
    setupSimulation e0 = Ok (e, report) /\
    run_ticks advance k (set_currentStep e 0, []) = Ok (ek, outk) /\
    currentStep ek = Z.of_nat k /\
    updateAgentPositions ek = Ok e1 /\
    run_tick advance (ek, outk) =
      Ok (set_currentStep (set_sim e1 (doStep advance (sim e1))) (Z.of_nat k + 1),
          rows_after_tick advance e1 outk) /\
    runSimulation advance e =
      run_ticks advance (Z.to_nat (maxSteps e0) - S k)
        (set_currentStep (set_sim e1 (doStep advance (sim e1))) (Z.of_nat k + 1),
         rows_after_tick advance e1 outk) /\
    getNumAgents (sim e1) = 12%nat /\
    prefs_ready e0 (Z.of_nat k) e1.
Proof.
  intros Hkr Hkc Hs Hfull Hmax Hk.
  destruct (setup_full_roster e0 Hs Hfull)
    as (e & report & Hsetup & Hav & Hpd & _ & Hms & _ & Hlen & _).
  destruct (run_ticks_ind (fun j e' _ => spent_hold e0 (Z.of_nat j) e')
              (set_currentStep e 0) [] k)
    as (ek & outk & Hrun & HP & Hc & Hm & Hav' & Hpd' & Hlen'); try done.
  - cbn. lia.
  - cbn. lia.
  - cbn. lia.
  - destruct (full_roster_participant e0 Hfull) as (p0 & ps & Hpos).
    split.
    + rewrite Hpos. unfold size. cbn [length]. lia.
    + intros a tr Hin Hkey.
      destruct (full_roster_avatar e0 a Hfull Hin) as (tr' & Hkey' & H1).
      rewrite Hkey in Hkey'. inversion Hkey'; subst tr'. lia.
  - intros j e1 out e2 Hj HP Hc Hm Hav1 Hpd1 Hlen1 Hu Hf.
    cbn in Hc, Hm, Hav1, Hpd1, Hlen1.
    replace (Z.of_nat (S j)) with (Z.of_nat j + 1) by lia.
    assert (Hc1 : currentStep e1 = Z.of_nat j) by lia.
    apply spent_hold_step; [done|lia|].
    rewrite <- Hc1.
    apply (update_prefs_ready e0 e1 e2); try done; try congruence; try lia.
  - cbn in Hc, Hm, Hav', Hpd', Hlen'.
    assert (Hck : currentStep ek = Z.of_nat k) by lia.
    destruct (updateAgentPositions_spec ek) as (e1 & Hu & Hf & _); [lia..|].
    pose proof Hf as (_ & _ & Hc1 & _).
    assert (Htick : run_tick advance (ek, outk) =
      Ok (set_currentStep (set_sim e1 (doStep advance (sim e1))) (Z.of_nat k + 1),
          rows_after_tick advance e1 outk)).
    { rewrite (run_tick_unfold ek outk e1 Hu). unfold after_tick, after_doStep.
      by rewrite Hc1, Hck. }
    exists e, report, ek, outk, e1.
    split; [done|]. split; [done|]. split; [done|]. split; [done|].
    split; [done|]. split.
    + rewrite runSimulation_unfold, Hms.
      replace (Z.to_nat (maxSteps e0))
        with (k + (1 + (Z.to_nat (maxSteps e0) - S k)))%nat at 1 by lia.
      rewrite run_ticks_add, Hrun. cbn [mbind result_bind].
      rewrite run_ticks_add. cbn [run_ticks mbind result_bind].
      rewrite Htick. reflexivity.
    + split.
      * unfold getNumAgents. rewrite (frame_length _ _ Hf). congruence.
      * rewrite <- Hck.
        apply (update_prefs_ready e0 ek e1); try done; try congruence; try lia.
Qed.

End RunFacts.

(** ** Synthetic data *)

Section GenerationFacts.
Context `{FO : FloatOps}.
Implicit Types (e : ExperimentSimulation) (tr : AgentTrajectory).

Lemma push_sample_lengths tr p s h :
  length (positions (push_sample tr p s h)) = S (length (positions tr)) /\
  length (speeds (push_sample tr p s h)) = S (length (speeds tr)) /\
  length (headings (push_sample tr p s h)) = S (length (headings tr)).
Proof. cbn. rewrite !length_app. cbn. lia. Qed.

Lemma participant_step_lengths steps tr i :
  length (positions (participant_step steps tr i)) = S (length (positions tr)) /\
  length (speeds (participant_step steps tr i)) = S (length (speeds tr)) /\
  length (headings (participant_step steps tr i)) = S (length (headings tr)).
Proof. unfold participant_step. apply push_sample_lengths. Qed.

Lemma avatar_step_lengths steps avatar tr i :
  length (positions (avatar_step steps avatar tr i)) = S (length (positions tr)) /\
  length (speeds (avatar_step steps avatar tr i)) = S (length (speeds tr)) /\
  length (headings (avatar_step steps avatar tr i)) = S (length (headings tr)).
Proof. unfold avatar_step. apply push_sample_lengths. Qed.

Lemma participant_fold_lengths steps (l : list Z) : forall tr,
  let tr' := foldl (participant_step steps) tr l in
  length (positions tr') = (length (positions tr) + length l)%nat /\
  length (speeds tr') = (length (speeds tr) + length l)%nat /\
  length (headings tr') = (length (headings tr) + length l)%nat.
Proof.
  induction l as [|i l IH]; intros tr; cbn [foldl length]; [lia|].
  specialize (IH (participant_step steps tr i)). cbv zeta in IH.
  destruct (participant_step_lengths steps tr i) as (-> & -> & ->) in IH.
  cbv zeta. lia.
Qed.

Lemma avatar_fold_lengths steps avatar (l : list Z) : forall tr,
  let tr' := foldl (avatar_step steps avatar) tr l in
  length (positions tr') = (length (positions tr) + length l)%nat /\
  length (speeds tr') = (length (speeds tr) + length l)%nat /\
  length (headings tr') = (length (headings tr) + length l)%nat.
Proof.
  induction l as [|i l IH]; intros tr; cbn [foldl length]; [lia|].
  specialize (IH (avatar_step steps avatar tr i)). cbv zeta in IH.
  destruct (avatar_step_lengths steps avatar tr i) as (-> & -> & ->) in IH.
  cbv zeta. lia.
Qed.

(** The ten keys are pairwise different. *)
Lemma avatar_keys_NoDup : NoDup (avatar_key <$> avatar_ordinals).
Proof. apply (bool_decide_unpack _). vm_compute. reflexivity. Qed.

Lemma generate_avatars_other steps (l : list Z) key : forall m,
  key ∉ avatar_key <$> l ->
  foldl (generate_avatar steps) m l !! key = m !! key.
Proof.
  induction l as [|b l IH]; intros m Hn; cbn [foldl]; [done|].
  rewrite fmap_cons, not_elem_of_cons in Hn. destruct Hn as [Hne Hn].
  rewrite IH by done. unfold generate_avatar. by rewrite lookup_insert_ne.
Qed.

(** After the outer avatar loop, the entry of each avatar of the loop is its
    previous entry (empty when it was new) with the samples appended. *)
Lemma generate_avatars_lookup steps (l : list Z) : forall m a,
  NoDup (avatar_key <$> l) -> a ∈ l ->
  foldl (generate_avatar steps) m l !! avatar_key a =
    Some (foldl (avatar_step steps a) (avatar_entry m (avatar_key a)) (seqZ 0 steps)).
Proof.
  induction l as [|b l IH]; intros m a Hnd Ha; [by apply elem_of_nil in Ha|].
  rewrite fmap_cons in Hnd. apply NoDup_cons in Hnd as [Hb Hnd].
  cbn [foldl].
  destruct (decide (a = b)) as [->|Hne].
  - rewrite generate_avatars_other by done.
    unfold generate_avatar. by rewrite lookup_insert_eq.
  - apply elem_of_cons in Ha as [?|Ha]; [done|].
    rewrite IH by done. f_equal. f_equal.
    unfold avatar_entry, generate_avatar.
    rewrite lookup_insert_ne; [done|].
    intros Heq. apply Hb. rewrite Heq. by apply list_elem_of_fmap_2.
Qed.

Lemma seqZ_500_length : length (seqZ 0 500) = 500%nat.
Proof. by rewrite length_seqZ. Qed.

Lemma generated_participant_sizes :
  let e := generateSampleData ExperimentSimulation_new in
  size (positions (participantData e)) = 500 /\
  size (speeds (participantData e)) = 500 /\
  size (headings (participantData e)) = 500.
Proof.
  intros e.
  unfold e, generateSampleData, size. cbn [participantData ExperimentSimulation_new].
  pose proof (participant_fold_lengths 500 (seqZ 0 500) (mkAgentTrajectory [] [] [])) as H.
  cbv zeta in H. rewrite seqZ_500_length in H. cbn [positions speeds headings length] in H.
  lia.
Qed.

Lemma generated_avatar_sizes a :
  a ∈ avatar_ordinals ->
  exists tr,
    avatarData (generateSampleData ExperimentSimulation_new) !! avatar_key a = Some tr /\
    size (positions tr) = 500 /\ size (speeds tr) = 500 /\ size (headings tr) = 500.
Proof.
  intros Hin. eexists. split.
  - unfold generateSampleData. cbn [avatarData ExperimentSimulation_new].
    apply generate_avatars_lookup; [apply avatar_keys_NoDup|done].
  - unfold avatar_entry. rewrite lookup_empty. cbn [default].
    pose proof (avatar_fold_lengths 500 a (seqZ 0 500) (mkAgentTrajectory [] [] [])) as H.
    cbv zeta in H. rewrite seqZ_500_length in H. cbn [positions speeds headings length] in H.
    unfold size. lia.
Qed.

Lemma generated_full_roster :
  full_roster (generateSampleData ExperimentSimulation_new) = true.
Proof.
  unfold full_roster. apply andb_true_intro. split.
  - pose proof generated_participant_sizes as (H & _). cbv zeta in H.
    unfold has_samples, size in *.
    destruct (positions (participantData (generateSampleData ExperimentSimulation_new)));
      [cbn in H; lia|done].
  - apply forallb_forall. intros a Ha%list_elem_of_In.
    destruct (generated_avatar_sizes a Ha) as (tr & -> & H & _).
    unfold has_samples, size in *. destruct (positions tr); [cbn in H; lia|done].
Qed.

(** C10. On a newly constructed driver, [generateSampleData] sets [maxSteps]
    to 500 and leaves the participant and each of the avatars A1P to A10P with
    exactly [maxSteps] positions, speeds and headings; so at every tick of the
    run the guard [currentStep < positions.size()] holds for each of them, up
    to and including the final tick 499. *)
Theorem generated_trajectories_span_the_run :
  let e := generateSampleData ExperimentSimulation_new in
  maxSteps e = 500 /\
  (size (positions (participantData e)) = maxSteps e /\
   size (speeds (participantData e)) = maxSteps e /\
   size (headings (participantData e)) = maxSteps e) /\
  (forall a, a ∈ avatar_ordinals ->
     exists tr, avatarData e !! avatar_key a = Some tr /\
       size (positions tr) = maxSteps e /\
       size (speeds tr) = maxSteps e /\
       size (headings tr) = maxSteps e) /\
  (forall k, 0 <= k < maxSteps e ->
     (k <? size (positions (participantData e))) = true /\
     forall a, a ∈ avatar_ordinals ->
       exists tr, avatarData e !! avatar_key a = Some tr /\
         (k <? size (positions tr)) = true).
Proof.
  intros e. pose proof generated_participant_sizes as Hp. cbv zeta in Hp. fold e in Hp.
  split; [reflexivity|]. change (maxSteps e) with 500.
  split; [exact Hp|]. split; [apply generated_avatar_sizes|].
  intros k Hk. split.
  - apply Z.ltb_lt. lia.
  - intros a Hin. destruct (generated_avatar_sizes a Hin) as (tr & Hkey & Hs & _).
    exists tr. split; [done|]. apply Z.ltb_lt. lia.
Qed.

End GenerationFacts.

(** ** The program *)

Section ProgramFacts.
Context `{FO : FloatOps}.
Variable advance : float -> list Agent -> list Agent.
Implicit Types (e : ExperimentSimulation) (out : list Row).

(** C9. [loadTrajectoryData] returns [true] whatever the path, and the object
    it leaves is the one [generateSampleData] leaves, so two paths give the
    same result; in [main] the branch that writes the warning to [std::cerr]
    is never taken. *)
Theorem load_ignores_path_and_succeeds :
  (forall e dataPath, loadTrajectoryData e dataPath = (generateSampleData e, true)) /\
  (forall e path1 path2, loadTrajectoryData e path1 = loadTrajectoryData e path2) /\
  (main advance).1 = [].
Proof. split; [|split]; reflexivity. Qed.

(** With data loaded but nothing registered, the first tick indexes the empty
    agent vector of the oracle: undefined behaviour, not a reported error. *)
Lemma tick_after_load_without_setup :
  updateAgentPositions (generateSampleData ExperimentSimulation_new) =
    Undefined OutOfRange.
Proof.
  set (e := generateSampleData ExperimentSimulation_new).
  pose proof generated_participant_sizes as (Hs & _). cbv zeta in Hs. fold e in Hs.
  unfold updateAgentPositions, update_participant.
  change (maxSteps e) with 500. change (currentStep e) with 0.
  cbn [Z.leb Z.compare]. change (to_size_t 0) with 0. rewrite Hs.
  cbn [Z.ltb Z.compare].
  rewrite calculatePreferredVelocity_estimate.
  destruct (estimate_total (participantData e) 0) as [v Hv];
    [unfold INT_MAX; lia|lia|].
  change (currentStep e) with 0. rewrite Hv. reflexivity.
Qed.

(** C5, as the code has it. The driver has no initialisation check. On a newly
    constructed driver on which neither data was loaded nor setup called, the
    tick operation returns at once and leaves the object as it is, and the run
    operation returns normally: no tick, no oracle call, no row. *)
Theorem run_before_setup_returns :
  updateAgentPositions ExperimentSimulation_new = Ok ExperimentSimulation_new /\
  runSimulation advance ExperimentSimulation_new = Ok (ExperimentSimulation_new, []) /\
  calls_ (sim ExperimentSimulation_new) = [].
Proof. split; [|split]; reflexivity. Qed.

Lemma log_rows_keys e :
  row_key <$> log_rows e = tick_keys (length (agents_ (sim e))) (currentStep e).
Proof.
  unfold log_rows, tick_keys. rewrite fmap_imap.
  rewrite <- (imap_seq_0 (agents_ (sim e)) (fun i => (currentStep e, i))).
  apply imap_ext. reflexivity.
Qed.

Lemma sampled_ticks_S first k :
  sampled_ticks first (S k) =
    sampled_ticks first k ++
      (if Z.rem (first + Z.of_nat k) 10 =? 0 then [first + Z.of_nat k] else []).
Proof.
  unfold sampled_ticks. rewrite seqZ_S, filter_app. f_equal.
  rewrite filter_singleton; [|exact []].
  destruct (Z.rem (first + Z.of_nat k) 10 =? 0) eqn:Hr.
  - apply Z.eqb_eq in Hr. by rewrite decide_True.
  - apply Z.eqb_neq in Hr. by rewrite decide_False.
Qed.

Lemma rows_after_tick_keys e1 out n first k :
  keeps_roster advance ->
  length (agents_ (sim e1)) = n -> currentStep e1 = first + Z.of_nat k ->
  row_key <$> out = flat_map (tick_keys n) (sampled_ticks first k) ->
  row_key <$> rows_after_tick advance e1 out =
    flat_map (tick_keys n) (sampled_ticks first (S k)).
Proof.
  intros Hkr Hn Hc Hout. unfold rows_after_tick.
  rewrite sampled_ticks_S, flat_map_app, <- Hout, Hc.
  destruct (Z.rem (first + Z.of_nat k) 10 =? 0).
  - rewrite fmap_app, log_rows_keys. cbn [flat_map]. rewrite app_nil_r.
    f_equal. cbn. rewrite Hkr, Hn, Hc. reflexivity.
  - cbn [flat_map]. by rewrite app_nil_r.
Qed.

(** C7, as the code has it. The run of [main] (synthetic data, [maxSteps] =
    500, a row block every tenth tick) returns; its rows are, in order, one
    per handle 0 to 11 for each of the 50 = ceil(500/10) sampled ticks 0, 10,
    ..., 490: 600 rows. The first row is the one for step 0 and the
    participant (handle 0). The participant was registered at sample 0 of its
    trajectory, but the row is written after the first [doStep]: it carries
    the position and velocity the oracle reports after that advance. *)
Theorem synthetic_run_rows :
  keeps_roster advance ->
  exists e out, (main advance).2 = Ok (e, out) /\
    row_key <$> out = flat_map (tick_keys 12) (sampled_ticks 0 500) /\
    Z.of_nat (length (sampled_ticks 0 500)) = (500 + 9) / 10 /\
    getNumAgents (sim e) = 12%nat /\
    length out = 600%nat /\
    exists e1 a0 a p0 ps,
      positions (participantData e) = p0 :: ps /\
      timeStep_ (sim e1) = TIME_STEP /\
      agents_ (sim e1) !! 0%nat = Some a0 /\ position_ a0 = p0 /\
      Ok (prefVelocity_ a0) = estimate (participantData e) 0 /\
      advance TIME_STEP (agents_ (sim e1)) !! 0%nat = Some a /\
      out !! 0%nat =
        Some (mkRow 0 0 (x_ (position_ a)) (y_ (position_ a))
                (x_ (velocity_ a)) (y_ (velocity_ a)) (vabs (velocity_ a))).
Proof.
  intros Hkr. unfold main, loadTrajectoryData. cbv beta iota zeta.
  cbn [negb snd].
  pose proof generated_full_roster as Hfull.
  assert (Hs0 : sim (generateSampleData ExperimentSimulation_new) =
                sim ExperimentSimulation_new) by reflexivity.
  assert (Hm0 : maxSteps (generateSampleData ExperimentSimulation_new) = 500)
    by reflexivity.
  set (e0 := generateSampleData ExperimentSimulation_new) in *. clearbody e0.
  destruct (setup_full_roster e0 Hs0 Hfull)
    as (es & report & Hsetup & Hav & Hpd & Hcs & Hms & Hdt & Hlen & _ & _ & _ & _ & Hfirst).
  destruct Hfirst as (a00 & p0 & ps & Ha00 & Hpos & Hp00 & Hv00).
  rewrite Hsetup. cbn [mbind result_bind]. rewrite runSimulation_unfold.
  assert (Hm500 : maxSteps es = 500) by congruence.
  rewrite Hm500. change (Z.to_nat 500) with 500%nat.
  set (start := set_currentStep es 0).
  destruct (updateAgentPositions_spec start) as (E1 & HuE & HfE & _ & HpE & _).
  { cbn. unfold INT_MAX. lia. }
  { cbn. lia. }
  { cbn. lia. }
  destruct (run_ticks_ind advance (rows_shape advance start E1) start [] 500)
    as (e' & out & Hrun & (Hkeys & rest & Hout) & _ & _ & _ & Hpd' & Hlen'); try done.
  - cbn. lia.
  - cbn. unfold INT_MAX. lia.
  - cbn. lia.
  - intros k e out e1 Hk (Hkeys & Hshape) Hc _ _ _ Hl Hu Hf.
    pose proof Hf as (_ & _ & Hc1 & _).
    split.
    + apply rows_after_tick_keys; [done| |rewrite Hc1, Hc; reflexivity|done].
      rewrite (frame_length _ _ Hf), Hl. cbn. exact Hlen.
    + destruct k as [|k].
      * destruct Hshape as [-> ->]. rewrite HuE in Hu. inversion Hu; subst e1.
        exists []. unfold rows_after_tick. rewrite Hc1. cbn. by rewrite app_nil_r.
      * destruct Hshape as [rest ->]. unfold rows_after_tick.
        destruct (Z.rem (currentStep e1) 10 =? 0); [|by exists rest].
        eexists. by rewrite <- app_assoc.
  - unfold start in Hpd', Hlen'. cbn in Hpd', Hlen'.
    destruct (frame_body_fwd start E1 0 a00 HfE Ha00) as (a0 & Ha0 & Hb0).
    destruct (lookup_lt_is_Some_2 (advance TIME_STEP (agents_ (sim E1))) 0) as [a Ha].
    { rewrite Hkr, (frame_length _ _ HfE). cbn. lia. }
    exists e', out. split; [done|]. split; [done|].
    split; [by vm_compute|].
    split; [unfold getNumAgents; congruence|].
    split.
    { rewrite <- (length_fmap row_key), Hkeys. by vm_compute. }
    exists E1, a0, a, p0, ps.
    split; [congruence|].
    pose proof HfE as (_ & _ & _ & _ & HdtE & _).
    split; [by rewrite HdtE|].
    split; [done|].
    split; [unfold agent_body in Hb0; congruence|].
    split.
    { change (currentStep start) with 0 in HpE.
      change (participantData start) with (participantData es) in HpE.
      rewrite Hpd'.
      destruct (0 <? size (positions (participantData es))) eqn:Hlt.
      - destruct HpE as (v & Hv & Hpv). unfold prefVelocityOf in Hpv.
        rewrite Ha0 in Hpv. cbn in Hpv. congruence.
      - rewrite Hpd, Hpos in Hlt. unfold size in Hlt. cbn in Hlt. done. }
    split.
    { pose proof HfE as (_ & _ & _ & _ & HdtE' & _). congruence. }
    rewrite Hout. rewrite lookup_app_l.
    + unfold log_rows. rewrite list_lookup_imap. cbn [after_doStep set_sim sim doStep agents_].
      rewrite HdtE. unfold start at 1. cbn [set_currentStep sim timeStep_].
      rewrite Hdt, Ha. cbn.
      pose proof HfE as (_ & _ & -> & _). reflexivity.
    + unfold log_rows. rewrite length_imap. cbn. rewrite Hkr, (frame_length _ _ HfE).
      cbn. lia.
Qed.

End ProgramFacts.

(** * The driver on the fixed-point carrier *)

Section FixedFacts.
Import Fixed.

Lemma free_flow_keeps_roster : keeps_roster free_flow.
Proof. intros dt ags. unfold free_flow. apply length_map. Qed.

Lemma free_flow_lookup dt (ags : list Agent) h :
  free_flow dt ags !! h = move dt <$> ags !! h.
Proof. unfold free_flow. apply (list_lookup_fmap (move dt)). Qed.

Lemma free_flow_keeps_commands : keeps_commands free_flow.
Proof.
  intros dt ags h a Ha. exists (move dt a).
  rewrite free_flow_lookup, Ha. done.
Qed.

Lemma free_flow_pins_static : pins_static free_flow.
Proof.
  intros dt ags h a' Ha' Hms. rewrite free_flow_lookup in Ha'.
  destruct (ags !! h) as [a|]; [|done]. inversion Ha'; subst a'.
  cbn in Hms. change (lit 0) with 0 in Hms.
  cbn [move velocity_]. unfold new_velocity. rewrite Hms. reflexivity.
Qed.

Lemma demo_full_roster : full_roster demo = true.
Proof. vm_compute. reflexivity. Qed.

Lemma demo_ready_maxSteps : maxSteps demo_ready = 5.
Proof. vm_compute. reflexivity. Qed.

(** The registration order on a sparse roster: N = 2. *)
Lemma setup_registration_order_witness :
  agents_ (sim sparse) = [] /\
  positions (participantData sparse) = [mkVector2 0 0; mkVector2 0 (of_int 1)] /\
  exists e' report, setupSimulation sparse = Ok (e', report) /\
    report = [AddedParticipant 0; AddedAvatar "A2P" 1; AddedAvatar "A7P" 2; AddedGoal 3] /\
    getNumAgents (sim e') = 4%nat.
Proof.
  split; [reflexivity|]. split; [reflexivity|].
  destruct (setup_registration_order sparse (mkVector2 0 0) [mkVector2 0 (of_int 1)]
              eq_refl eq_refl) as (e' & report & Hs & Hr & Hn & _).
  exists e', report. split; [exact Hs|]. split.
  - rewrite Hr. vm_compute. reflexivity.
  - rewrite Hn. vm_compute. reflexivity.
Defined.

(** Tick 4 of the five-tick demo run, where every trajectory has run out. *)
Lemma prefs_set_before_every_doStep_witness :
  full_roster demo = true /\ Z.of_nat 4 < maxSteps demo /\
  exists e report ek outk e1,
    setupSimulation demo = Ok (e, report) /\
    run_ticks free_flow 4 (set_currentStep e 0, []) = Ok (ek, outk) /\
    updateAgentPositions ek = Ok e1 /\
    prefs_ready demo (Z.of_nat 4) e1.
Proof.
  split; [exact demo_full_roster|]. split; [reflexivity|].
  destruct (prefs_set_before_every_doStep free_flow demo 4
              free_flow_keeps_roster free_flow_keeps_commands eq_refl
              demo_full_roster)
    as (e & report & ek & outk & e1 & Hs & Hr & _ & Hu & _ & _ & _ & Hp).
  - vm_compute. discriminate.
  - reflexivity.
  - exists e, report, ek, outk, e1.
    split; [exact Hs|]. split; [exact Hr|]. split; [exact Hu|exact Hp].
Defined.

(** The five-tick demo run calls [doStep] five times. *)
Lemma run_calls_doStep_maxSteps_times_witness :
  (12 <= getNumAgents (sim demo_ready))%nat /\
  exists e' out, runSimulation free_flow demo_ready = Ok (e', out) /\
    count_doStep (calls_ (sim e')) = 5%nat /\ currentStep e' = 5.
Proof.
  assert (Hn : (12 <= getNumAgents (sim demo_ready))%nat) by (vm_compute; lia).
  split; [exact Hn|].
  destruct (run_calls_doStep_maxSteps_times free_flow demo_ready
              free_flow_keeps_roster) as (e' & out & Hr & Hc & Hcs).
  - rewrite demo_ready_maxSteps. unfold INT_MAX. lia.
  - exact Hn.
  - exists e', out. split; [exact Hr|]. split.
    + rewrite Hc. vm_compute. reflexivity.
    + rewrite Hcs. exact demo_ready_maxSteps.
Defined.

(** The goal of the demo run is handle 11 and stays at rest. *)
Lemma goal_never_driven_witness :
  full_roster demo = true /\
  exists e report e' out,
    setupSimulation demo = Ok (e, report) /\
    runSimulation free_flow e = Ok (e', out) /\
    (forall v, CallSetAgentPrefVelocity 11 v ∈ calls_ (sim e') -> v = vzero) /\
    (forall r, r ∈ out -> row_agent_id r = 11%nat ->
       row_vx r = float_lit 0 /\ row_vy r = float_lit 0).
Proof.
  split; [exact demo_full_roster|].
  destruct (goal_never_driven free_flow demo
              free_flow_keeps_roster free_flow_keeps_commands free_flow_pins_static
              eq_refl demo_full_roster)
    as (e & report & e' & out & Hs & _ & Hr & Hc & Hrows).
  - vm_compute. split; discriminate.
  - exists e, report, e', out.
    split; [exact Hs|]. split; [exact Hr|]. split; [exact Hc|exact Hrows].
Defined.

(** The synthetic run on the free-flow oracle. *)
Lemma synthetic_run_rows_witness :
  keeps_roster free_flow /\
  exists e out, (main free_flow).2 = Ok (e, out) /\ length out = 600%nat.
Proof.
  split; [exact free_flow_keeps_roster|].
  destruct (synthetic_run_rows free_flow free_flow_keeps_roster)
    as (e & out & Hm & _ & _ & _ & Hl & _).
  exists e, out. split; assumption.
Defined.

Lemma first_row_moved_spec (res : result (ExperimentSimulation * list Row)) :
  first_row_moved res = true ->
  exists e out r p0, res = Ok (e, out) /\
    out !! 0%nat = Some r /\ row_step r = 0 /\ row_agent_id r = 0%nat /\
    positions (participantData e) !! 0%nat = Some p0 /\
    (row_x r, row_y r) <> (x_ p0, y_ p0).
Proof.
  unfold first_row_moved. intros H.
  destruct res as [[e [|r out]]|]; try discriminate.
  destruct (positions (participantData e)) as [|p0 ps] eqn:Hp; try discriminate.
  apply andb_prop in H as [H Hneq]. apply andb_prop in H as [Hstep Hid].
  exists e, (r :: out), r, p0.
  split; [reflexivity|]. split; [reflexivity|].
  split; [by apply Z.eqb_eq|]. split; [by apply Nat.eqb_eq|].
  split; [by rewrite Hp|].
  intros [= Hx Hy]. rewrite Hx, Hy, !Z.eqb_refl in Hneq. discriminate.
Qed.

(** C7, the claim as stated, refuted: in the synthetic run on the free-flow
    oracle the first row is the row of step 0 for the participant, and its
    position is not sample 0 of the participant's trajectory: the row was read
    after the first [doStep] had moved the participant. *)
Lemma synthetic_first_row_is_not_sample_0 :
  exists e out r p0, (main free_flow).2 = Ok (e, out) /\
    out !! 0%nat = Some r /\ row_step r = 0 /\ row_agent_id r = 0%nat /\
    positions (participantData e) !! 0%nat = Some p0 /\
    (row_x r, row_y r) <> (x_ p0, y_ p0).
Proof. apply first_row_moved_spec. vm_compute. reflexivity. Qed.

(** C5, the claim as stated, refuted: on a newly constructed driver, with
    setup never called, the tick operation and the run operation both return
    normally. *)
Lemma run_before_setup_does_not_fail :
  updateAgentPositions (@ExperimentSimulation_new ops) = Ok ExperimentSimulation_new /\
  runSimulation free_flow (@ExperimentSimulation_new ops) =
    Ok (ExperimentSimulation_new, []).
Proof. split; reflexivity. Qed.

End FixedFacts.

(** * Further properties of the driver *)

(** ** Loading again *)

Section GenerationExtras.
Context `{FO : FloatOps}.
Implicit Types (e : ExperimentSimulation) (tr : AgentTrajectory).

Lemma appended_refl tr : appended 0 tr tr.
Proof. exists [], [], []. rewrite !app_nil_r. done. Qed.

Lemma appended_push n tr tr' p s h :
  appended n (push_sample tr p s h) tr' -> appended (S n) tr tr'.
Proof.
  intros (ps & ss & hs & Hp & Hs & Hh & Lp & Ls & Lh).
  exists (p :: ps), (s :: ss), (h :: hs).
  cbn [push_sample positions speeds headings] in Hp, Hs, Hh.
  rewrite <- !app_assoc in Hp, Hs, Hh. cbn [length]. auto 10.
Qed.

(** A loop of [push_back]s keeps what the trajectory held and appends one
    sample per iteration. *)
Lemma push_loop_appended (step : AgentTrajectory -> Z -> AgentTrajectory) (l : list Z) :
  (forall tr i, exists p s h, step tr i = push_sample tr p s h) ->
  forall tr, appended (length l) tr (foldl step tr l).
Proof.
  intros Hstep. induction l as [|i l IH]; intros tr; cbn [foldl length].
  - apply appended_refl.
  - destruct (Hstep tr i) as (p & s & h & Hpush).
    apply (appended_push _ _ _ p s h). rewrite <- Hpush. apply IH.
Qed.

Lemma participant_loop_appended steps tr :
  appended (Z.to_nat steps) tr (foldl (participant_step steps) tr (seqZ 0 steps)).
Proof.
  rewrite <- (length_seqZ 0 steps). apply push_loop_appended.
  intros tr' i. unfold participant_step. eauto.
Qed.

Lemma avatar_loop_appended steps avatar tr :
  appended (Z.to_nat steps) tr (foldl (avatar_step steps avatar) tr (seqZ 0 steps)).
Proof.
  rewrite <- (length_seqZ 0 steps). apply push_loop_appended.
  intros tr' i. unfold avatar_step. eauto.
Qed.

(** X1. [generateSampleData] never clears a trajectory: on any driver it keeps
    the samples the participant and each of A1P to A10P already hold and
    pushes 500 more onto each of the three vectors, while [maxSteps] becomes
    500 whatever it was. A driver that is loaded twice therefore holds 1000
    samples per trajectory for a run of 500 ticks. *)
Theorem generateSampleData_appends e :
  maxSteps (generateSampleData e) = 500 /\
  appended 500 (participantData e) (participantData (generateSampleData e)) /\
  (forall a, a ∈ avatar_ordinals ->
     exists tr, avatarData (generateSampleData e) !! avatar_key a = Some tr /\
       appended 500 (avatar_entry (avatarData e) (avatar_key a)) tr) /\
  size (positions (participantData (generateSampleData (generateSampleData e)))) =
    size (positions (participantData e)) + 1000.
Proof.
  split; [reflexivity|]. split; [|split].
  - apply (participant_loop_appended 500).
  - intros a Ha. eexists. split.
    + unfold generateSampleData. cbn [avatarData].
      apply generate_avatars_lookup; [apply avatar_keys_NoDup|done].
    + apply (avatar_loop_appended 500).
  - destruct (participant_loop_appended 500 (participantData e))
      as (ps1 & _ & _ & Hp1 & _ & _ & L1 & _).
    destruct (participant_loop_appended 500 (participantData (generateSampleData e)))
      as (ps2 & _ & _ & Hp2 & _ & _ & L2 & _).
    change (positions (participantData (generateSampleData (generateSampleData e))))
      with (positions (foldl (participant_step 500)
                        (participantData (generateSampleData e)) (seqZ 0 500))).
    rewrite Hp2.
    change (positions (participantData (generateSampleData e)))
      with (positions (foldl (participant_step 500) (participantData e) (seqZ 0 500))).
    rewrite Hp1. unfold size. rewrite !length_app, L1, L2. lia.
Qed.

(** X2. [generateSampleData] touches nothing but [maxSteps], the participant
    and the ten entries A1P to A10P: the oracle, the tick counter, subject and
    trial stay as they are, and so does every other entry of the avatar map. *)
Theorem generateSampleData_frame e :
  sim (generateSampleData e) = sim e /\
  currentStep (generateSampleData e) = currentStep e /\
  subject (generateSampleData e) = subject e /\
  trial (generateSampleData e) = trial e /\
  (forall key, key ∉ avatar_key <$> avatar_ordinals ->
     avatarData (generateSampleData e) !! key = avatarData e !! key) /\
  (forall key, is_Some (avatarData e !! key) ->
     is_Some (avatarData (generateSampleData e) !! key)).
Proof.
  split; [reflexivity|]. split; [reflexivity|]. split; [reflexivity|].
  split; [reflexivity|]. split.
  - intros key Hk. unfold generateSampleData. cbn [avatarData].
    by apply generate_avatars_other.
  - intros key Hs.
    destruct (decide (key ∈ avatar_key <$> avatar_ordinals)) as [Hin|Hout].
    + apply list_elem_of_fmap in Hin as (a & -> & Ha).
      unfold generateSampleData. cbn [avatarData].
      rewrite generate_avatars_lookup; [done|apply avatar_keys_NoDup|done].
    + unfold generateSampleData. cbn [avatarData].
      by rewrite generate_avatars_other.
Qed.

End GenerationExtras.

(** ** Registration on any driver *)

Section RegistrationExtras.
Context `{FO : FloatOps}.
Implicit Types (e : ExperimentSimulation) (s : RVOSimulator).

Lemma registered_avatars_bound m (l : list Z) :
  (length (registered_avatars m l) <= length l)%nat.
Proof.
  induction l as [|a l IH]; [cbn; lia|].
  unfold registered_avatars in *. cbn [omap list_omap].
  match goal with |- context [match ?x with Some _ => _ :: _ | None => _ end] =>
    destruct x end; cbn [length]; lia.
Qed.

(** [setupSimulation] when the participant has no sample: the participant
    block registers nothing and the avatars take the first handles. *)
Lemma setupSimulation_spec_no_participant e :
  positions (participantData e) = [] ->
  let regs := registered_avatars (avatarData e) avatar_ordinals in
  let n := length (agents_ (sim e)) in
  setupSimulation e =
    Ok (set_sim e
          (mkRVOSimulator
             (agents_ (sim e) ++
                map (fun kp => new_agent (sim e) kp.2) regs ++
                [mkAgent goalPos vzero vzero (float_lit 0)])
             (timeStep_ (sim e)) (defaultAgent_ (sim e))
             (CallSetAgentMaxSpeed (n + length regs) (float_lit 0) ::
              CallAddAgent goalPos ::
              rev (map (fun kp => CallAddAgent kp.2) regs) ++ calls_ (sim e))),
        avatar_report n regs ++ [AddedGoal (n + length regs)]).
Proof.
  intros Hp regs n. subst regs n. unfold setupSimulation, setup_participant.
  generalize avatar_ordinals. intros l.
  rewrite Hp. rewrite setup_avatars_spec.
  destruct e as [s m pd cs ms su tl].
  cbn [sim set_sim agents_ timeStep_ defaultAgent_ calls_ avatarData
       participantData currentStep maxSteps subject trial].
  set (regs := registered_avatars m l). clearbody regs.
  unfold addAgent. cbv beta iota zeta.
  cbn [sim set_sim agents_ timeStep_ defaultAgent_ calls_ avatarData
       participantData currentStep maxSteps subject trial].
  rewrite setAgentMaxSpeed_last.
  cbn [position_ velocity_ prefVelocity_ maxSpeed_ mbind result_bind].
  rewrite !length_app, length_map. cbn [app].
  rewrite <- !app_assoc. reflexivity.
Qed.

(** What [setupSimulation] does on any driver, with or without data. *)
Lemma setupSimulation_any e :
  let regs := registered_avatars (avatarData e) avatar_ordinals in
  let n := length (agents_ (sim e)) in
  let np := length (participant_regs e) in
  setupSimulation e =
    Ok (set_sim e
          (mkRVOSimulator
             (agents_ (sim e) ++
                (map (new_agent (sim e)) (participant_regs e) ++
                 map (fun kp => new_agent (sim e) kp.2) regs ++
                 [mkAgent goalPos vzero vzero (float_lit 0)]))
             (timeStep_ (sim e)) (defaultAgent_ (sim e))
             (CallSetAgentMaxSpeed (n + np + length regs) (float_lit 0) ::
              CallAddAgent goalPos ::
              rev (map (fun kp => CallAddAgent kp.2) regs) ++
              rev (map CallAddAgent (participant_regs e)) ++ calls_ (sim e))),
        map (fun _ => AddedParticipant n) (participant_regs e) ++
          avatar_report (n + np) regs ++ [AddedGoal (n + np + length regs)]).
Proof.
  intros regs n np. subst regs n np. unfold participant_regs.
  destruct (positions (participantData e)) as [|p0 ps] eqn:Hp.
  - rewrite (setupSimulation_spec_no_participant e Hp). cbn [map length app rev].
    rewrite !Nat.add_0_r. reflexivity.
  - rewrite (setupSimulation_spec e p0 ps Hp). cbn [map length app rev].
    replace (length (agents_ (sim e)) + 1)%nat with (S (length (agents_ (sim e)))) by lia.
    cbn [Nat.add]. reflexivity.
Qed.

(** X3. [setupSimulation] returns on every driver, loaded or not, set up
    before or not. It leaves the trajectory data and the counters alone, keeps
    the agents already registered and appends between 1 and 12 new ones, one
    per line of its report; the last of them is the goal, at [goalPos] with
    maximum speed zero, and its handle is the new agent count minus one. It
    never calls [doStep]. *)
Theorem setupSimulation_total e :
  exists e' report added,
    setupSimulation e = Ok (e', report) /\
    (avatarData e' = avatarData e /\ participantData e' = participantData e /\
     currentStep e' = currentStep e /\ maxSteps e' = maxSteps e) /\
    agents_ (sim e') = agents_ (sim e) ++ added /\
    length added = length report /\
    (1 <= length report <= 12)%nat /\
    last report = Some (AddedGoal (getNumAgents (sim e') - 1)) /\
    (exists g, last (agents_ (sim e')) = Some g /\
       position_ g = goalPos /\ maxSpeed_ g = float_lit 0) /\
    count_doStep (calls_ (sim e')) = count_doStep (calls_ (sim e)).
Proof.
  pose proof (setupSimulation_any e) as H. cbv zeta in H.
  pose proof (registered_avatars_bound (avatarData e) avatar_ordinals) as Hb.
  change (length avatar_ordinals) with 10%nat in Hb.
  set (regs := registered_avatars (avatarData e) avatar_ordinals) in *. clearbody regs.
  assert (Hnp : (length (participant_regs e) <= 1)%nat).
  { unfold participant_regs. destruct (positions (participantData e)); cbn; lia. }
  set (pr := participant_regs e) in *. clearbody pr.
  eexists _, _, _. split; [exact H|].
  cbn [set_sim sim avatarData participantData currentStep maxSteps agents_ calls_].
  split; [done|]. split; [reflexivity|].
  split. { rewrite !length_app, !length_map, avatar_report_length. reflexivity. }
  split. { rewrite !length_app, !length_map, avatar_report_length. cbn [length]. lia. }
  split.
  { rewrite !app_assoc, last_snoc. f_equal. f_equal. unfold getNumAgents.
    cbn [agents_]. rewrite !length_app, !length_map. cbn [length]. lia. }
  split.
  { eexists. rewrite !app_assoc, last_snoc. done. }
  cbn [count_doStep]. rewrite !count_doStep_app, count_doStep_adds.
  assert (Hc : count_doStep (rev (map CallAddAgent pr)) = 0%nat).
  { clear. induction pr as [|p pr IH]; [reflexivity|].
    cbn [map rev]. rewrite count_doStep_app, IH. reflexivity. }
  rewrite Hc. reflexivity.
Qed.

(** X4. When the participant has no sample, [setupSimulation] on an oracle
    without agents registers no participant: the report has no participant
    line, the avatars with data take the handles from 0 on, and the goal takes
    the handle after them. Handle 0, which [updateAgentPositions] treats as
    the participant, is then an avatar or the goal. *)
Theorem setupSimulation_without_participant e :
  agents_ (sim e) = [] -> positions (participantData e) = [] ->
  let regs := registered_avatars (avatarData e) avatar_ordinals in
  exists e' report, setupSimulation e = Ok (e', report) /\
    report = avatar_report 0 regs ++ [AddedGoal (length regs)] /\
    (forall id, AddedParticipant id ∉ report) /\
    getNumAgents (sim e') = S (length regs) /\
    position_ <$> agents_ (sim e') !! 0%nat =
      Some (match regs with kp :: _ => kp.2 | [] => goalPos end).
Proof.
  intros Hags Hp regs.
  pose proof (setupSimulation_spec_no_participant e Hp) as H. cbv zeta in H.
  fold regs in H. rewrite Hags in H. cbn [length app Nat.add] in H.
  eexists _, _. split; [exact H|]. split; [reflexivity|]. split; [|split].
  - intros id Hin. apply elem_of_app in Hin as [Hin|Hin].
    + clear -Hin. revert Hin. generalize 0%nat.
      induction regs as [|kp regs IH]; intros first; cbn [avatar_report].
      * by intros ?%elem_of_nil.
      * intros [?|?]%elem_of_cons; [done|]. by eapply IH.
    + by apply list_elem_of_singleton in Hin.
  - unfold getNumAgents. cbn [set_sim sim agents_].
    rewrite length_app, length_map. cbn [length]. lia.
  - cbn [set_sim sim agents_]. destruct regs as [|kp regs']; reflexivity.
Qed.

End RegistrationExtras.

(** ** The tick on any roster *)

Section TickExtras.
Context `{FO : FloatOps}.
Implicit Types (e : ExperimentSimulation) (s : RVOSimulator).

Lemma run_calls_since_refl calls : run_calls_since calls calls.
Proof. exists []. split; [reflexivity|constructor]. Qed.

Lemma run_calls_since_trans c1 c2 c3 :
  run_calls_since c1 c2 -> run_calls_since c2 c3 -> run_calls_since c1 c3.
Proof.
  intros (n1 & -> & H1) (n2 & -> & H2). exists (n2 ++ n1).
  split; [by rewrite app_assoc|]. by apply Forall_app.
Qed.

Lemma run_calls_since_cons calls calls' c :
  run_call c -> run_calls_since calls calls' -> run_calls_since calls (c :: calls').
Proof.
  intros Hc (new & -> & Hn). exists (c :: new). split; [reflexivity|by constructor].
Qed.

Lemma pref_writes_refl e : pref_writes e e.
Proof. split; [apply frame_refl|]. split; [apply run_calls_since_refl|done]. Qed.

Lemma pref_writes_trans e1 e2 e3 :
  pref_writes e1 e2 -> pref_writes e2 e3 -> pref_writes e1 e3.
Proof.
  intros (F1 & C1 & U1) (F2 & C2 & U2). split; [by eapply frame_trans|].
  split; [by eapply run_calls_since_trans|].
  intros h Hh. rewrite U2, U1; done.
Qed.

(** One preferred-velocity write by one of the handles 0 to 11: out of range
    when the handle was never issued, a write of the tick otherwise. *)
Lemma set_pref_cases e h v :
  (h <= 11)%nat -> (h = 11%nat -> v = vzero) ->
  (setAgentPrefVelocity (sim e) h v = Undefined OutOfRange /\
   (length (agents_ (sim e)) <= h)%nat) \/
  (exists s', setAgentPrefVelocity (sim e) h v = Ok s' /\
              pref_writes e (set_sim e s') /\
              (h < length (agents_ (sim e)))%nat).
Proof.
  intros Hh Hgoal.
  destruct (agents_ (sim e) !! h) as [a|] eqn:Ha.
  - right. pose proof (lookup_lt_Some _ _ _ Ha) as Hlt.
    destruct (setAgentPrefVelocity_frame e h v Hlt Hgoal) as (s' & Hs & Hf & _ & Ho).
    exists s'. split; [exact Hs|]. split; [|exact Hlt].
    split; [exact Hf|]. split.
    + unfold setAgentPrefVelocity in Hs. rewrite Ha in Hs. inversion Hs; subst s'.
      cbn [set_sim sim calls_]. apply run_calls_since_cons; [exact Hh|].
      apply run_calls_since_refl.
    + intros h' Hh'. cbn [set_sim sim]. apply Ho. lia.
  - left. unfold setAgentPrefVelocity. rewrite Ha. split; [reflexivity|].
    by apply lookup_ge_None.
Qed.

Lemma update_participant_cases e :
  0 <= currentStep e <= INT_MAX ->
  (update_participant e = Undefined OutOfRange /\ agents_ (sim e) = []) \/
  (exists e1, update_participant e = Ok e1 /\ pref_writes e e1).
Proof.
  intros Hcs. unfold update_participant. rewrite (to_size_t_int _ Hcs).
  destruct (currentStep e <? size (positions (participantData e))) eqn:Hlt.
  2:{ right. exists e. split; [reflexivity|apply pref_writes_refl]. }
  apply Z.ltb_lt in Hlt.
  destruct (estimate_total (participantData e) (currentStep e) Hcs Hlt) as [v Hv].
  rewrite calculatePreferredVelocity_estimate, Hv. cbn [mbind result_bind].
  destruct (set_pref_cases e 0 v) as [[Hu Hl]|(s' & Hs & Hw & _)]; [lia|done| |].
  - left. rewrite Hu. split; [reflexivity|].
    destruct (agents_ (sim e)); [reflexivity|cbn in Hl; lia].
  - right. exists (set_sim e s'). rewrite Hs. done.
Qed.

Lemma update_avatar_cases e avatar :
  0 <= currentStep e <= INT_MAX -> 1 <= avatar <= 10 ->
  (update_avatar e avatar = Undefined OutOfRange /\
   (length (agents_ (sim e)) <= 10)%nat) \/
  (exists e1, update_avatar e avatar = Ok e1 /\ pref_writes e e1).
Proof.
  intros Hcs Ha. unfold update_avatar. rewrite (to_size_t_int _ Hcs).
  destruct (avatarData e !! avatar_key avatar) as [tr|].
  2:{ right. exists e. split; [reflexivity|apply pref_writes_refl]. }
  destruct (currentStep e <? size (positions tr)) eqn:Hlt.
  2:{ right. exists e. split; [reflexivity|apply pref_writes_refl]. }
  apply Z.ltb_lt in Hlt.
  destruct (estimate_total tr (currentStep e) Hcs Hlt) as [v Hv].
  rewrite calculatePreferredVelocity_estimate, Hv. cbn [mbind result_bind].
  destruct (set_pref_cases e (Z.to_nat avatar) v) as [[Hu Hl]|(s' & Hs & Hw & _)];
    [lia|lia| |].
  - left. rewrite Hu. split; [reflexivity|lia].
  - right. exists (set_sim e s'). rewrite Hs. done.
Qed.

Lemma update_avatars_cases (l : list Z) : forall e,
  0 <= currentStep e <= INT_MAX -> (forall a, a ∈ l -> 1 <= a <= 10) ->
  (for_each update_avatar e l = Undefined OutOfRange /\
   (length (agents_ (sim e)) <= 10)%nat) \/
  (exists e', for_each update_avatar e l = Ok e' /\ pref_writes e e').
Proof.
  induction l as [|a l IH]; intros e Hcs Hr.
  - right. exists e. split; [reflexivity|apply pref_writes_refl].
  - cbn [for_each].
    destruct (update_avatar_cases e a Hcs) as [[Hu Hl]|(e1 & Hu & Hw)].
    { apply Hr. left. }
    + left. rewrite Hu. done.
    + rewrite Hu. cbn [mbind result_bind].
      pose proof Hw as ((_ & _ & Hc1 & _) & _).
      destruct (IH e1) as [[Hu' Hl']|(e' & Hu' & Hw')].
      { by rewrite Hc1. }
      { intros a' Ha'. apply Hr. by right. }
      * left. split; [exact Hu'|].
        destruct Hw as (Hf & _). by rewrite <- (frame_length _ _ Hf).
      * right. exists e'. split; [exact Hu'|]. by eapply pref_writes_trans.
Qed.

(** [updateAgentPositions] on any driver whose counter an [int] holds: past
    the budget it returns the object untouched; inside the budget it is
    defined exactly when the oracle has the twelve handles it addresses. *)
Lemma updateAgentPositions_cases e :
  0 <= currentStep e <= INT_MAX ->
  if maxSteps e <=? currentStep e then updateAgentPositions e = Ok e
  else if decide (length (agents_ (sim e)) < 12)%nat
       then updateAgentPositions e = Undefined OutOfRange
       else exists e1, updateAgentPositions e = Ok e1 /\ pref_writes e e1.
Proof.
  intros Hcs. unfold updateAgentPositions.
  destruct (maxSteps e <=? currentStep e); [reflexivity|].
  destruct (update_participant_cases e Hcs) as [[Hu Hl]|(e1 & Hu & Hw1)].
  { rewrite Hu, Hl. cbn. reflexivity. }
  rewrite Hu. cbn [mbind result_bind].
  pose proof Hw1 as (Hf1 & _). pose proof Hf1 as (_ & _ & Hc1 & _).
  pose proof (frame_length _ _ Hf1) as Hl1.
  destruct (update_avatars_cases avatar_ordinals e1) as [[Hu2 Hl2]|(e2 & Hu2 & Hw2)].
  { by rewrite Hc1. }
  { apply avatar_ordinals_range. }
  { rewrite Hu2. cbn [mbind result_bind]. rewrite decide_True by lia. reflexivity. }
  rewrite Hu2. cbn [mbind result_bind].
  pose proof Hw2 as (Hf2 & _). pose proof (frame_length _ _ Hf2) as Hl2.
  destruct (set_pref_cases e2 11 vzero) as [[Hu3 Hl3]|(s' & Hs & Hw3 & Hlt)]; [lia|done| |].
  - rewrite Hu3. cbn [mbind result_bind]. rewrite decide_True by lia. reflexivity.
  - rewrite Hs. cbn [mbind result_bind]. rewrite decide_False by lia.
    eexists. split; [reflexivity|].
    eapply pref_writes_trans; [exact Hw1|]. eapply pref_writes_trans; [exact Hw2|exact Hw3].
Qed.

(** X6. A tick never moves an agent. With the twelve handles registered,
    [updateAgentPositions] returns on any driver and leaves the trajectory
    data, the counters and the number of agents as they are; every agent keeps
    its position, velocity and maximum speed, an agent with a handle from 12
    on is not touched at all, and the only calls made are preferred-velocity
    writes to the handles 0 to 11. *)
Theorem tick_writes_only_preferred_velocities e :
  0 <= currentStep e <= INT_MAX -> (12 <= getNumAgents (sim e))%nat ->
  exists e1, updateAgentPositions e = Ok e1 /\
    (avatarData e1 = avatarData e /\ participantData e1 = participantData e /\
     currentStep e1 = currentStep e /\ maxSteps e1 = maxSteps e) /\
    getNumAgents (sim e1) = getNumAgents (sim e) /\
    (forall h a, agents_ (sim e) !! h = Some a ->
       exists a1, agents_ (sim e1) !! h = Some a1 /\
         position_ a1 = position_ a /\ velocity_ a1 = velocity_ a /\
         maxSpeed_ a1 = maxSpeed_ a /\ ((12 <= h)%nat -> a1 = a)) /\
    run_calls_since (calls_ (sim e)) (calls_ (sim e1)) /\
    count_doStep (calls_ (sim e1)) = count_doStep (calls_ (sim e)).
Proof.
  intros Hcs Hn. unfold getNumAgents in *.
  pose proof (updateAgentPositions_cases e Hcs) as H.
  assert (Hw : exists e1, updateAgentPositions e = Ok e1 /\ pref_writes e e1).
  { destruct (maxSteps e <=? currentStep e).
    - exists e. split; [exact H|apply pref_writes_refl].
    - rewrite decide_False in H by lia. exact H. }
  destruct Hw as (e1 & Hu & Hf & Hc & Ho). exists e1. split; [exact Hu|].
  pose proof Hf as (Hav & Hpd & Hc1 & Hm1 & _ & _ & Hcount & _).
  split; [done|]. split; [by apply frame_length|]. split; [|done].
  intros h a Ha.
  destruct (frame_body_fwd e e1 h a Hf Ha) as (a1 & Ha1 & Hb).
  exists a1. split; [exact Ha1|]. unfold agent_body in Hb.
  split; [congruence|]. split; [congruence|]. split; [congruence|].
  intros Hh. rewrite (Ho h Hh), Ha in Ha1. congruence.
Qed.

End TickExtras.

(** ** The run on any driver *)

Section RunExtras.
Context `{FO : FloatOps}.
Variable advance : float -> list Agent -> list Agent.
Implicit Types (e : ExperimentSimulation) (out : list Row).

Lemma sampled_ticks_count (k : nat) :
  Z.of_nat (length (sampled_ticks 0 k)) = (Z.of_nat k + 9) / 10.
Proof.
  induction k as [|k IH]; [reflexivity|].
  rewrite sampled_ticks_S, length_app, Nat2Z.inj_add, IH, !Z.add_0_l.
  destruct (Z.rem (Z.of_nat k) 10 =? 0) eqn:Hr.
  - apply Z.eqb_eq in Hr. rewrite Z.rem_mod_nonneg in Hr by lia.
    cbn [length]. Z.to_euclidean_division_equations. lia.
  - apply Z.eqb_neq in Hr. rewrite Z.rem_mod_nonneg in Hr by lia.
    cbn [length]. Z.to_euclidean_division_equations. lia.
Qed.

Lemma tick_keys_block_length n (l : list Z) :
  length (flat_map (tick_keys n) l) = (n * length l)%nat.
Proof.
  induction l as [|k l IH]; cbn [flat_map length]; [lia|].
  rewrite length_app, IH. unfold tick_keys. rewrite length_fmap, length_seq. lia.
Qed.

Lemma log_rows_wellformed e budget r :
  r ∈ log_rows e -> Z.rem (currentStep e) 10 = 0 -> 0 <= currentStep e < budget ->
  row_wellformed budget (length (agents_ (sim e))) r.
Proof.
  unfold log_rows. intros Hin Hrem Hcs.
  apply elem_of_lookup_imap_1 in Hin as (i & a & -> & Ha).
  split; [|split; [|split]]; cbn; try done.
  - by destruct (velocity_ a).
  - by eapply lookup_lt_Some.
Qed.

(** A run of [n] ticks from tick 0 on a driver with at least twelve agents
    returns, and [run_progress] describes what it leaves. *)
Lemma run_ticks_progress e (n : nat) :
  keeps_roster advance -> Z.of_nat n <= maxSteps e <= INT_MAX ->
  (12 <= length (agents_ (sim e)))%nat ->
  exists e' out, run_ticks advance n (set_currentStep e 0, []) = Ok (e', out) /\
    run_progress (calls_ (sim e)) (length (agents_ (sim e))) (maxSteps e) n e' out /\
    currentStep e' = Z.of_nat n /\ maxSteps e' = maxSteps e /\
    avatarData e' = avatarData e /\ participantData e' = participantData e /\
    length (agents_ (sim e')) = length (agents_ (sim e)).
Proof.
  intros Hkr Hm Hlen.
  destruct (run_ticks_ind advance
              (run_progress (calls_ (sim e)) (length (agents_ (sim e))) (maxSteps e))
              (set_currentStep e 0) [] n)
    as (e' & out & Hrun & HP & Hc & Hrest); try done.
  - cbn. lia.
  - cbn. lia.
  - split; [apply run_calls_since_refl|]. split; [cbn; lia|].
    split; [reflexivity|constructor].
  - intros k e1 out e2 Hk (Hcalls & Hcount & Hkeys & Hrows) Hc Hms _ _ Hl Hu Hf.
    cbn in Hc, Hms, Hl.
    pose proof (updateAgentPositions_cases e1) as Hcases.
    replace (maxSteps e1 <=? currentStep e1) with false in Hcases
      by (symmetry; apply Z.leb_gt; lia).
    rewrite decide_False in Hcases by lia.
    destruct Hcases as (e2' & Hu' & _ & Hcs2 & _); [unfold INT_MAX in *; lia|].
    rewrite Hu in Hu'. inversion Hu'; subst e2'. clear Hu'.
    pose proof Hf as (_ & _ & Hc2 & _ & _ & _ & Hcount2 & _).
    pose proof (frame_length _ _ Hf) as Hl2.
    split; [|split; [|split]].
    + cbn. apply run_calls_since_cons; [exact I|].
      by eapply run_calls_since_trans.
    + cbn. rewrite Hcount2, Hcount. lia.
    + apply rows_after_tick_keys; [done|congruence|lia|done].
    + unfold rows_after_tick. destruct (Z.rem (currentStep e2) 10 =? 0) eqn:Hr; [|done].
      apply Z.eqb_eq in Hr. apply Forall_app. split; [done|].
      apply Forall_forall. intros r Hin.
      replace (length (agents_ (sim e))) with (length (agents_ (sim (after_doStep advance e2))))
        by (cbn; rewrite Hkr; congruence).
      apply log_rows_wellformed; [done|done|]. cbn. lia.
  - exists e', out. split; [done|]. split; [done|]. cbn in Hc, Hrest.
    split; [lia|done].
Qed.

Lemma runSimulation_progress e :
  keeps_roster advance -> 0 <= maxSteps e <= INT_MAX ->
  (12 <= length (agents_ (sim e)))%nat ->
  exists e' out, runSimulation advance e = Ok (e', out) /\
    run_progress (calls_ (sim e)) (length (agents_ (sim e))) (maxSteps e)
      (Z.to_nat (maxSteps e)) e' out /\
    currentStep e' = maxSteps e /\ maxSteps e' = maxSteps e /\
    avatarData e' = avatarData e /\ participantData e' = participantData e /\
    length (agents_ (sim e')) = length (agents_ (sim e)).
Proof.
  intros Hkr Hm Hlen. rewrite runSimulation_unfold.
  destruct (run_ticks_progress e (Z.to_nat (maxSteps e)) Hkr) as (e' & out & H & HP & Hc & Hr);
    [lia|done|].
  exists e', out. split; [done|]. split; [done|]. split; [lia|done].
Qed.

(** X5. Inside the budget the tick needs the twelve handles it addresses. On
    a driver with a positive [maxSteps] whose oracle has fewer than twelve
    agents (nothing registered, a roster with an avatar missing, ...), the
    first tick indexes the oracle's agent vector out of range, and so does
    [runSimulation]; no row is written and the oracle is not advanced. *)
Theorem run_needs_twelve_agents e :
  0 < maxSteps e <= INT_MAX -> (getNumAgents (sim e) < 12)%nat ->
  updateAgentPositions (set_currentStep e 0) = Undefined OutOfRange /\
  runSimulation advance e = Undefined OutOfRange.
Proof.
  intros Hm Hn. unfold getNumAgents in Hn.
  assert (Hu : updateAgentPositions (set_currentStep e 0) = Undefined OutOfRange).
  { pose proof (updateAgentPositions_cases (set_currentStep e 0)) as H.
    cbn [set_currentStep currentStep maxSteps sim] in H.
    replace (maxSteps e <=? 0) with false in H by (symmetry; apply Z.leb_gt; lia).
    rewrite decide_True in H by lia. apply H. unfold INT_MAX. lia. }
  split; [exact Hu|].
  rewrite runSimulation_unfold.
  destruct (Z.to_nat (maxSteps e)) as [|n] eqn:Hz; [lia|].
  cbn [run_ticks]. unfold run_tick. rewrite Hu. reflexivity.
Qed.

(** X7. The rows of any run, in the order written: for each sampled tick 0,
    10, 20, ... below [maxSteps], one row per agent of the oracle in handle
    order. Their number is the agent count times ceil(maxSteps / 10); a run
    with [maxSteps] = 0 writes none. *)
Theorem run_rows_by_step_then_handle e :
  keeps_roster advance -> 0 <= maxSteps e <= INT_MAX ->
  (12 <= getNumAgents (sim e))%nat ->
  exists e' out, runSimulation advance e = Ok (e', out) /\
    row_key <$> out =
      flat_map (tick_keys (getNumAgents (sim e)))
        (sampled_ticks 0 (Z.to_nat (maxSteps e))) /\
    Z.of_nat (length out) =
      Z.of_nat (getNumAgents (sim e)) * ((maxSteps e + 9) / 10).
Proof.
  intros Hkr Hm Hn. unfold getNumAgents in *.
  destruct (runSimulation_progress e Hkr Hm Hn) as (e' & out & Hrun & (_ & _ & Hkeys & _) & _).
  exists e', out. split; [done|]. split; [done|].
  rewrite <- (length_fmap row_key), Hkeys, tick_keys_block_length.
  rewrite Nat2Z.inj_mul, sampled_ticks_count. rewrite Z2Nat.id by lia. reflexivity.
Qed.

(** X8. Every row of a run is well formed: its speed column is [abs] of the
    vector of its two velocity columns, its step is a multiple of 10 inside
    the budget, and its handle is one of the oracle's. *)
Theorem run_rows_wellformed e :
  keeps_roster advance -> 0 <= maxSteps e <= INT_MAX ->
  (12 <= getNumAgents (sim e))%nat ->
  exists e' out, runSimulation advance e = Ok (e', out) /\
    forall r, r ∈ out ->
      row_speed r = vabs (mkVector2 (row_vx r) (row_vy r)) /\
      Z.rem (row_step r) 10 = 0 /\
      0 <= row_step r < maxSteps e /\
      (row_agent_id r < getNumAgents (sim e))%nat.
Proof.
  intros Hkr Hm Hn. unfold getNumAgents in *.
  destruct (runSimulation_progress e Hkr Hm Hn) as (e' & out & Hrun & (_ & _ & _ & Hrows) & _).
  exists e', out. split; [done|]. intros r Hin.
  rewrite Forall_forall in Hrows. exact (Hrows r Hin).
Qed.

(** X9. A finished run can be followed by anything: it leaves the trajectory
    data, [maxSteps] and the agent count as they were and the counter at
    [maxSteps], so a further [updateAgentPositions] returns the object
    untouched, and a further [runSimulation] starts again at tick 0: it
    returns, advances the oracle another [maxSteps] times and writes rows with
    the same step and handle columns. *)
Theorem run_can_be_repeated e :
  keeps_roster advance -> 0 <= maxSteps e <= INT_MAX ->
  (12 <= getNumAgents (sim e))%nat ->
  exists e1 out1 e2 out2,
    runSimulation advance e = Ok (e1, out1) /\
    (avatarData e1 = avatarData e /\ participantData e1 = participantData e /\
     maxSteps e1 = maxSteps e /\ getNumAgents (sim e1) = getNumAgents (sim e) /\
     currentStep e1 = maxSteps e) /\
    updateAgentPositions e1 = Ok e1 /\
    runSimulation advance e1 = Ok (e2, out2) /\
    count_doStep (calls_ (sim e2)) =
      (count_doStep (calls_ (sim e)) + 2 * Z.to_nat (maxSteps e))%nat /\
    row_key <$> out2 = row_key <$> out1.
Proof.
  intros Hkr Hm Hn. unfold getNumAgents in *.
  destruct (runSimulation_progress e Hkr Hm Hn)
    as (e1 & out1 & Hrun1 & (_ & Hc1 & Hk1 & _) & Hcs1 & Hm1 & Hav1 & Hpd1 & Hl1).
  destruct (runSimulation_progress e1 Hkr) as (e2 & out2 & Hrun2 & (_ & Hc2 & Hk2 & _) & _);
    [lia|lia|].
  exists e1, out1, e2, out2. split; [done|]. split; [done|]. split.
  - unfold updateAgentPositions.
    replace (maxSteps e1 <=? currentStep e1) with true
      by (symmetry; apply Z.leb_le; lia).
    reflexivity.
  - split; [done|]. split; [rewrite Hc2, Hc1, Hm1; lia|].
    rewrite Hk2, Hk1, Hm1, Hl1. reflexivity.
Qed.

(** X10. A run never changes the roster: every call it makes on the oracle is
    a preferred-velocity write to one of the handles 0 to 11 or a [doStep];
    it registers no agent and sets no maximum speed. *)
Theorem run_makes_only_run_calls e :
  keeps_roster advance -> 0 <= maxSteps e <= INT_MAX ->
  (12 <= getNumAgents (sim e))%nat ->
  exists e' out new, runSimulation advance e = Ok (e', out) /\
    calls_ (sim e') = new ++ calls_ (sim e) /\
    (forall c, c ∈ new ->
       c = CallDoStep \/ exists h v, c = CallSetAgentPrefVelocity h v /\ (h <= 11)%nat) /\
    getNumAgents (sim e') = getNumAgents (sim e).
Proof.
  intros Hkr Hm Hn. unfold getNumAgents in *.
  destruct (runSimulation_progress e Hkr Hm Hn)
    as (e' & out & Hrun & ((new & Hnew & Hall) & _) & _ & _ & _ & _ & Hl).
  exists e', out, new. split; [done|]. split; [done|]. split; [|done].
  intros c Hin. rewrite Forall_forall in Hall. specialize (Hall c Hin).
  destruct c as [p|h s|h v|]; cbn in Hall; try done; [right|left]; eauto.
Qed.

(** X11. Agents with a handle from 12 on, such as those a second
    [setupSimulation] registers, are never driven: through a whole run each of
    them holds the preferred velocity it had before, given an oracle that
    keeps the roster and the commands. *)
Theorem run_never_drives_handles_from_12 e :
  keeps_roster advance -> keeps_commands advance ->
  0 <= maxSteps e <= INT_MAX -> (12 <= getNumAgents (sim e))%nat ->
  exists e' out, runSimulation advance e = Ok (e', out) /\
    forall h, (12 <= h)%nat ->
      prefVelocityOf (sim e') h = prefVelocityOf (sim e) h.
Proof.
  intros Hkr Hkc Hm Hn. unfold getNumAgents in *. rewrite runSimulation_unfold.
  destruct (run_ticks_ind advance
              (fun _ e' _ => forall h, (12 <= h)%nat ->
                 prefVelocityOf (sim e') h = prefVelocityOf (sim e) h)
              (set_currentStep e 0) [] (Z.to_nat (maxSteps e)))
    as (e' & out & Hrun & HP & _); try done.
  - cbn. lia.
  - cbn. lia.
  - intros k e1 out e2 Hk HP Hc Hms _ _ Hl Hu Hf h Hh.
    cbn in Hc, Hms, Hl.
    pose proof (updateAgentPositions_cases e1) as Hcases.
    replace (maxSteps e1 <=? currentStep e1) with false in Hcases
      by (symmetry; apply Z.leb_gt; lia).
    rewrite decide_False in Hcases by lia.
    destruct Hcases as (e2' & Hu' & _ & _ & Ho); [unfold INT_MAX in *; lia|].
    rewrite Hu in Hu'. inversion Hu'; subst e2'. clear Hu'.
    rewrite <- (HP h Hh). unfold prefVelocityOf. rewrite <- (Ho h Hh). cbn.
    destruct (agents_ (sim e2) !! h) as [a|] eqn:Ha.
    + destruct (Hkc (timeStep_ (sim e2)) _ _ _ Ha) as (a' & -> & Hp & _).
      cbn. congruence.
    + apply lookup_ge_None in Ha.
      rewrite (proj2 (lookup_ge_None _ _)); [done|]. by rewrite Hkr.
  - exists e', out. done.
Qed.

End RunExtras.

(** ** Handles of the full roster *)

Section RosterExtras.
Context `{FO : FloatOps}.
Implicit Types (e : ExperimentSimulation).

Lemma registered_avatars_lookup_full m (l : list Z) :
  forallb (fun avatar =>
             match m !! avatar_key avatar with
             | Some tr => has_samples tr
             | None => false
             end) l = true ->
  forall i a, l !! i = Some a ->
    exists tr p0 ps, m !! avatar_key a = Some tr /\ positions tr = p0 :: ps /\
      registered_avatars m l !! i = Some (avatar_key a, p0).
Proof.
  induction l as [|b l IH]; intros Hall i a Hi; [done|].
  cbn [forallb] in Hall. apply andb_prop in Hall as [Hb Hall].
  unfold registered_avatars in *. cbn [omap list_omap].
  destruct (m !! avatar_key b) as [tr|] eqn:Hk; [|done].
  unfold has_samples in Hb. destruct (positions tr) as [|p0 ps] eqn:Hp; [done|].
  destruct i as [|i].
  - cbn in Hi. inversion Hi; subst a. exists tr, p0, ps. rewrite Hk. done.
  - cbn in Hi. cbn [lookup list_lookup]. by apply IH.
Qed.

(** X12. With the participant and all ten avatars holding data, setup on an
    oracle without agents hands out exactly the handles the tick hard-codes:
    the participant gets 0, avatar [a] (key A[a]P) gets handle [a] and stands
    at the first sample of its own trajectory, and the goal gets 11. *)
Theorem setup_handles_match_the_tick e :
  agents_ (sim e) = [] -> full_roster e = true ->
  exists e' report, setupSimulation e = Ok (e', report) /\
    head report = Some (AddedParticipant 0) /\
    last report = Some (AddedGoal 11) /\
    getNumAgents (sim e') = 12%nat /\
    forall a, a ∈ avatar_ordinals ->
      exists tr p0, avatarData e !! avatar_key a = Some tr /\
        positions tr !! 0%nat = Some p0 /\
        report !! Z.to_nat a = Some (AddedAvatar (avatar_key a) (Z.to_nat a)) /\
        position_ <$> agents_ (sim e') !! Z.to_nat a = Some p0.
Proof.
  intros Hags Hfull.
  destruct (full_roster_participant e Hfull) as (p0 & ps & Hp).
  pose proof (setupSimulation_spec e p0 ps Hp) as H. cbv zeta in H.
  assert (Hall : forallb (fun avatar =>
             match avatarData e !! avatar_key avatar with
             | Some tr => has_samples tr
             | None => false
             end) avatar_ordinals = true).
  { unfold full_roster in Hfull. by apply andb_prop in Hfull as [_ ?]. }
  pose proof (registered_avatars_length _ _ Hall) as Hlen.
  change (length avatar_ordinals) with 10%nat in Hlen.
  pose proof (registered_avatars_lookup_full _ _ Hall) as Hlook.
  set (regs := registered_avatars (avatarData e) avatar_ordinals) in *. clearbody regs.
  rewrite Hags, Hlen in H. cbn [length app Nat.add] in H.
  eexists _, _. split; [exact H|]. split; [reflexivity|].
  split. { by rewrite app_comm_cons, last_snoc. }
  split.
  { unfold getNumAgents. cbn [set_sim sim agents_ length].
    rewrite length_app, length_map, Hlen. reflexivity. }
  intros a Ha.
  assert (Hi : avatar_ordinals !! (Z.to_nat a - 1)%nat = Some a).
  { unfold avatar_ordinals in *. apply elem_of_seqZ in Ha.
    apply lookup_seqZ. lia. }
  destruct (Hlook _ _ Hi) as (tr & q0 & qs & Hk & Hq & Hr).
  exists tr, q0. split; [done|]. split; [by rewrite Hq|].
  apply avatar_ordinals_range in Ha.
  assert (Hlt : (Z.to_nat a - 1 < length regs)%nat) by (by eapply lookup_lt_Some).
  replace (Z.to_nat a) with (S (Z.to_nat a - 1)) at 1 3 by lia.
  split.
  - rewrite lookup_cons_ne_0 by lia. cbn [Nat.pred].
    rewrite lookup_app_l by (rewrite avatar_report_length; lia).
    rewrite (avatar_report_lookup regs 1 _ _ Hr). cbn. do 2 f_equal. lia.
  - cbn [set_sim sim agents_]. rewrite lookup_cons_ne_0 by lia. cbn [Nat.pred].
    rewrite lookup_app_l by (rewrite length_map; lia).
    rewrite list_lookup_fmap, Hr. reflexivity.
Qed.

End RosterExtras.

(** ** The further properties on the fixed-point carrier *)

Section FixedExtras.
Import Fixed.

Lemma demo_twice_agents : getNumAgents (sim demo_twice) = 24%nat.
Proof. vm_compute. reflexivity. Qed.

Lemma demo_twice_maxSteps : maxSteps demo_twice = 5.
Proof. vm_compute. reflexivity. Qed.

Lemma demo_ready_agents : getNumAgents (sim demo_ready) = 12%nat.
Proof. vm_compute. reflexivity. Qed.

(** Setup without a participant: the avatars take the handles 0 and 1. *)
Lemma setupSimulation_without_participant_witness :
  agents_ (sim headless) = [] /\ positions (participantData headless) = [] /\
  exists e' report, setupSimulation headless = Ok (e', report) /\
    report = [AddedAvatar "A2P" 0; AddedAvatar "A7P" 1; AddedGoal 2].
Proof.
  split; [reflexivity|]. split; [reflexivity|].
  destruct (setupSimulation_without_participant headless eq_refl eq_refl)
    as (e' & report & Hs & Hr & _).
  exists e', report. split; [exact Hs|]. rewrite Hr. vm_compute. reflexivity.
Defined.

(** The sparse roster, four agents: the run faults at its first tick. *)
Lemma run_needs_twelve_agents_witness :
  0 < maxSteps sparse_ready <= INT_MAX /\
  (getNumAgents (sim sparse_ready) < 12)%nat /\
  runSimulation free_flow sparse_ready = Undefined OutOfRange.
Proof.
  assert (Hm : 0 < maxSteps sparse_ready <= INT_MAX) by (vm_compute; split; [reflexivity|discriminate]).
  assert (Hn : (getNumAgents (sim sparse_ready) < 12)%nat) by (vm_compute; lia).
  split; [exact Hm|]. split; [exact Hn|].
  exact (proj2 (run_needs_twelve_agents free_flow sparse_ready Hm Hn)).
Defined.

(** A tick on the roster registered twice. *)
Lemma tick_writes_only_preferred_velocities_witness :
  0 <= currentStep demo_twice <= INT_MAX /\
  (12 <= getNumAgents (sim demo_twice))%nat /\
  exists e1, updateAgentPositions demo_twice = Ok e1 /\
    getNumAgents (sim e1) = 24%nat.
Proof.
  assert (Hc : 0 <= currentStep demo_twice <= INT_MAX) by (vm_compute; split; discriminate).
  assert (Hn : (12 <= getNumAgents (sim demo_twice))%nat) by (rewrite demo_twice_agents; lia).
  split; [exact Hc|]. split; [exact Hn|].
  destruct (tick_writes_only_preferred_velocities demo_twice Hc Hn)
    as (e1 & Hu & _ & Hl & _).
  exists e1. split; [exact Hu|]. rewrite Hl. exact demo_twice_agents.
Defined.

Lemma demo_ready_budget : 0 <= maxSteps demo_ready <= INT_MAX.
Proof. rewrite demo_ready_maxSteps. unfold INT_MAX. lia. Qed.

Lemma demo_ready_roster : (12 <= getNumAgents (sim demo_ready))%nat.
Proof. rewrite demo_ready_agents. lia. Qed.

(** The five-tick demo run writes the twelve rows of tick 0. *)
Lemma run_rows_by_step_then_handle_witness :
  (12 <= getNumAgents (sim demo_ready))%nat /\
  exists e' out, runSimulation free_flow demo_ready = Ok (e', out) /\
    length out = 12%nat.
Proof.
  split; [exact demo_ready_roster|].
  destruct (run_rows_by_step_then_handle free_flow demo_ready
              free_flow_keeps_roster demo_ready_budget demo_ready_roster)
    as (e' & out & Hr & _ & Hl).
  exists e', out. split; [exact Hr|].
  rewrite demo_ready_agents, demo_ready_maxSteps in Hl.
  change ((5 + 9) / 10) with 1 in Hl. lia.
Defined.

Lemma run_rows_wellformed_witness :
  (12 <= getNumAgents (sim demo_ready))%nat /\
  exists e' out, runSimulation free_flow demo_ready = Ok (e', out) /\
    forall r, r ∈ out -> row_speed r = vabs (mkVector2 (row_vx r) (row_vy r)).
Proof.
  split; [exact demo_ready_roster|].
  destruct (run_rows_wellformed free_flow demo_ready
              free_flow_keeps_roster demo_ready_budget demo_ready_roster)
    as (e' & out & Hr & Hrows).
  exists e', out. split; [exact Hr|]. intros r Hin. exact (proj1 (Hrows r Hin)).
Defined.

(** The demo run twice over: ten advances. *)
Lemma run_can_be_repeated_witness :
  (12 <= getNumAgents (sim demo_ready))%nat /\
  exists e1 out1 e2 out2,
    runSimulation free_flow demo_ready = Ok (e1, out1) /\
    runSimulation free_flow e1 = Ok (e2, out2) /\
    count_doStep (calls_ (sim e2)) = 10%nat.
Proof.
  split; [exact demo_ready_roster|].
  destruct (run_can_be_repeated free_flow demo_ready
              free_flow_keeps_roster demo_ready_budget demo_ready_roster)
    as (e1 & out1 & e2 & out2 & Hr1 & _ & _ & Hr2 & Hc & _).
  exists e1, out1, e2, out2. split; [exact Hr1|]. split; [exact Hr2|].
  rewrite Hc. vm_compute. reflexivity.
Defined.

Lemma run_makes_only_run_calls_witness :
  (12 <= getNumAgents (sim demo_ready))%nat /\
  exists e' out, runSimulation free_flow demo_ready = Ok (e', out) /\
    getNumAgents (sim e') = 12%nat.
Proof.
  split; [exact demo_ready_roster|].
  destruct (run_makes_only_run_calls free_flow demo_ready
              free_flow_keeps_roster demo_ready_budget demo_ready_roster)
    as (e' & out & new & Hr & _ & _ & Hn).
  exists e', out. split; [exact Hr|]. rewrite Hn. exact demo_ready_agents.
Defined.

(** The second roster of [demo_twice] is never driven. *)
Lemma run_never_drives_handles_from_12_witness :
  (12 <= getNumAgents (sim demo_twice))%nat /\
  exists e' out, runSimulation free_flow demo_twice = Ok (e', out) /\
    prefVelocityOf (sim e') 12 = Some vzero /\
    prefVelocityOf (sim e') 23 = Some vzero.
Proof.
  assert (Hn : (12 <= getNumAgents (sim demo_twice))%nat) by (rewrite demo_twice_agents; lia).
  split; [exact Hn|].
  destruct (run_never_drives_handles_from_12 free_flow demo_twice
              free_flow_keeps_roster free_flow_keeps_commands)
    as (e' & out & Hr & Hp).
  - rewrite demo_twice_maxSteps. unfold INT_MAX. lia.
  - exact Hn.
  - exists e', out. split; [exact Hr|]. split.
    + rewrite Hp by lia. vm_compute. reflexivity.
    + rewrite Hp by lia. vm_compute. reflexivity.
Defined.

(** The handles of the demo roster. *)
Lemma setup_handles_match_the_tick_witness :
  agents_ (sim demo) = [] /\ full_roster demo = true /\
  exists e' report, setupSimulation demo = Ok (e', report) /\
    report !! 7%nat = Some (AddedAvatar "A7P" 7) /\
    last report = Some (AddedGoal 11).
Proof.
  split; [reflexivity|]. split; [exact demo_full_roster|].
  destruct (setup_handles_match_the_tick demo eq_refl demo_full_roster)
    as (e' & report & Hs & _ & Hl & _ & Ha).
  exists e', report. split; [exact Hs|]. split; [|exact Hl].
  assert (Hk : avatar_key 7 = "A7P") by (vm_compute; reflexivity).
  destruct (Ha 7) as (tr & p0 & _ & _ & Hr & _).
  - unfold avatar_ordinals. apply elem_of_seqZ. lia.
  - rewrite Hk in Hr. exact Hr.
Defined.

End FixedExtras.
